(** * NACA 4-digit airfoil generator ([naca4.py])

    A shallow embedding of [naca4] and a verification of its
    specification.

    Number model.  The parameters [m], [p], [t], [c] are Python floats, as
    the docstring declares them and as the script passes them;
    [num_points] is a Python int.  Floating point is idealised: a finite
    value is a real number (no rounding, no overflow, no signed zero).
    The two special values that a division by zero stores in an array,
    infinity and NaN, are values of their own and follow the IEEE rules.

    What raises in Python raises here:
    - [/] between two Python scalars raises [ZeroDivisionError] on a zero
      divisor;
    - numpy's elementwise [/] never raises (it warns, and stores inf or
      nan);
    - [np.linspace] raises [ValueError] on a negative sample count.

    The idealisation has a range.  Where a scalar of the source overflows
    or underflows, binary64 arithmetic and real arithmetic part ways in
    kind and not only in the last digit: an exception is raised, or an
    entry is infinite or NaN.  The statements about which formula a call
    evaluates are read for a call that returns, which in this model is
    [p <> 1].  The statements about exceptions and about symmetry are made
    on binary64 numbers, in [B64]; those about the values returned are
    made for parameters of ordinary magnitude ([ordinary],
    [max_samples]). *)

From Stdlib Require Import Reals Lra Lia ZArith List Bool Psatz.
From Stdlib Require Floats Uint63 String Ascii DecimalString.
Import ListNotations.

Open Scope R_scope.

(** ** Python exceptions and results *)

Inductive exn : Type :=
| ZeroDivisionError
| ValueError.

Inductive result (A : Type) : Type :=
| Ok (a : A)
| Raise (e : exn).

Arguments Ok {A} a.
Arguments Raise {A} e.

Definition bind {A B : Type} (r : result A) (k : A -> result B) : result B :=
  match r with
  | Ok a => k a
  | Raise e => Raise e
  end.

Notation "x <- r ;; k" := (bind r (fun x => k))
  (at level 61, r at next level, right associativity).

(** Python scalar division [a / b]. *)
Definition pydiv (a b : R) : result R :=
  if Req_dec_T b 0 then Raise ZeroDivisionError else Ok (a / b).

(** ** numpy float64 elements *)

Module Np.

Inductive float64 : Type :=
| Fin (r : R)
| Inf (neg : bool)
| NaN.

Definition negative (r : R) : bool :=
  if Rlt_dec r 0 then true else false.

Definition neg (a : float64) : float64 :=
  match a with
  | Fin r => Fin (- r)
  | Inf s => Inf (negb s)
  | NaN => NaN
  end.

Definition add (a b : float64) : float64 :=
  match a, b with
  | Fin x, Fin y => Fin (x + y)
  | Fin _, Inf s => Inf s
  | Inf s, Fin _ => Inf s
  | Inf s, Inf s' => if Bool.eqb s s' then Inf s else NaN
  | _, _ => NaN
  end.

Definition sub (a b : float64) : float64 := add a (neg b).

Definition mul (a b : float64) : float64 :=
  match a, b with
  | Fin x, Fin y => Fin (x * y)
  | Fin x, Inf s => if Req_dec_T x 0 then NaN else Inf (xorb (negative x) s)
  | Inf s, Fin y => if Req_dec_T y 0 then NaN else Inf (xorb s (negative y))
  | Inf s, Inf s' => Inf (xorb s s')
  | _, _ => NaN
  end.

Definition div (a b : float64) : float64 :=
  match a, b with
  | Fin x, Fin y =>
      if Req_dec_T y 0
      then (if Req_dec_T x 0 then NaN else Inf (negative x))
      else Fin (x / y)
  | Fin _, Inf _ => Fin 0
  | Inf s, Fin y => Inf (xorb s (negative y))
  | Inf _, Inf _ => NaN
  | _, _ => NaN
  end.

(** [a ** k] for a Python int exponent [k >= 1]. *)
Definition power (a : float64) (k : nat) : float64 :=
  match a with
  | Fin r => Fin (r ^ k)
  | Inf s => Inf (s && Nat.odd k)
  | NaN => NaN
  end.

Definition sqrt (a : float64) : float64 :=
  match a with
  | Fin r => if Rlt_dec r 0 then NaN else Fin (R_sqrt.sqrt r)
  | Inf false => Inf false
  | Inf true => NaN
  | NaN => NaN
  end.

Definition arctan (a : float64) : float64 :=
  match a with
  | Fin r => Fin (atan r)
  | Inf false => Fin (PI / 2)
  | Inf true => Fin (- (PI / 2))
  | NaN => NaN
  end.

Definition cos (a : float64) : float64 :=
  match a with
  | Fin r => Fin (Rtrigo_def.cos r)
  | _ => NaN
  end.

(** [a <= b]; every comparison with NaN is false. *)
Definition le (a b : float64) : bool :=
  match a, b with
  | Fin x, Fin y => if Rle_dec x y then true else false
  | Fin _, Inf s => negb s
  | Inf s, Fin _ => s
  | Inf s, Inf s' => s || negb s'
  | _, _ => false
  end.

End Np.

Abbreviation float64 := Np.float64.
Abbreviation Fin := Np.Fin.
Abbreviation Inf := Np.Inf.
Abbreviation NaN := Np.NaN.

Definition ndarray : Type := list float64.

(** Elementwise operation on two arrays of one shape. *)
Definition map2 {A B C : Type} (f : A -> B -> C) (a : list A) (b : list B)
  : list C :=
  map (fun ab => f (fst ab) (snd ab)) (combine a b).

Declare Scope np_scope.
Delimit Scope np_scope with np.

(** array (op) array: a colon on each side *)
Notation "a :+: b" := (map2 Np.add a b)
  (at level 50, left associativity) : np_scope.
Notation "a :-: b" := (map2 Np.sub a b)
  (at level 50, left associativity) : np_scope.
Notation "a :*: b" := (map2 Np.mul a b)
  (at level 40, left associativity) : np_scope.
(** scalar (op) array, the scalar broadcast: a colon on the array's side *)
Notation "s +: a" := (map (Np.add (Fin s)) a)
  (at level 50, left associativity) : np_scope.
Notation "s -: a" := (map (Np.sub (Fin s)) a)
  (at level 50, left associativity) : np_scope.
Notation "s *: a" := (map (Np.mul (Fin s)) a)
  (at level 40, left associativity) : np_scope.
(** array (op) scalar *)
Notation "a :/ s" := (map (fun e => Np.div e (Fin s)) a)
  (at level 40, left associativity) : np_scope.
Notation "a :* s" := (map (fun e => Np.mul e (Fin s)) a)
  (at level 40, left associativity) : np_scope.
Notation "a :+ s" := (map (fun e => Np.add e (Fin s)) a)
  (at level 50, left associativity) : np_scope.
Notation "a :<= s" := (map (fun e => Np.le e (Fin s)) a)
  (at level 70, no associativity) : np_scope.
Notation "a :^ k" := (map (fun e => Np.power e k) a)
  (at level 30, right associativity) : np_scope.

Definition np_sqrt (a : ndarray) : ndarray := map Np.sqrt a.
Definition np_arctan (a : ndarray) : ndarray := map Np.arctan a.
Definition np_cos (a : ndarray) : ndarray := map Np.cos a.
Definition np_zeros_like (a : ndarray) : ndarray := map (fun _ => Fin 0) a.

(** [np.where(cond, a, b)]: the entry of [a] where [cond] holds, of [b]
    elsewhere. *)
Fixpoint np_where (cond : list bool) (a b : ndarray) : ndarray :=
  match cond, a, b with
  | k :: cond', u :: a', v :: b' =>
      (if k then u else v) :: np_where cond' a' b'
  | _, _, _ => []
  end.

(** ** [np.linspace(start, stop, num)]

    As numpy computes it: [arange(0, num)] scaled by the step
    [(stop - start) / (num - 1)] and shifted by [start], with the last
    sample overwritten by [stop] when there are at least two samples. *)

Definition np_arange (num : Z) : ndarray :=
  map (fun i => Fin (INR i)) (seq 0 (Z.to_nat num)).

Definition set_last (y : ndarray) (v : float64) : ndarray :=
  match y with
  | [] => []
  | _ => removelast y ++ [v]
  end.

Definition np_linspace (start stop : R) (num : Z) : result ndarray :=
  if (num <? 0)%Z then Raise ValueError
  else
    let div := (num - 1)%Z in
    let delta := stop - start in
    let y := np_arange num in
    let y :=
      if (0 <? div)%Z then
        let step := delta / IZR div in
        if Req_dec_T step 0
        then ((y :/ IZR div) :* delta)%np
        else (y :* step)%np
      else (y :* delta)%np in
    let y := (y :+ start)%np in
    Ok (if (1 <? num)%Z then set_last y (Fin stop) else y).

(** ** [naca4]

    The local variables of the body, in the order the source assigns
    them.  [naca4_body] computes them all and [naca4] returns three of
    them; [thickness] is line 27 and [camber] lines 29-38. *)

Record locals : Type := Locals {
  x : ndarray;
  yt : ndarray;
  yc : ndarray;
  dyc_dx : ndarray;
  theta : ndarray;
  y_upper : ndarray;
  y_lower : ndarray
}.

Open Scope np_scope.

(** Line 27: the thickness distribution. *)
Definition thickness (t c : R) (x : ndarray) : result ndarray :=
  k <- pydiv t 0.20 ;;
  Ok ((k * c) *: (0.2969 *: np_sqrt (x :/ c)
                  :-: 0.1260 *: (x :/ c)
                  :-: 0.3516 *: (x :/ c) :^ 2
                  :+: 0.2843 *: (x :/ c) :^ 3
                  :-: 0.1015 *: (x :/ c) :^ 4)).

(** Lines 33-38: the [else] branch.  Both arguments of each [np.where]
    are whole arrays, built before the selection. *)
Definition camber_general (m p c : R) (x : ndarray)
  : result (ndarray * ndarray) :=
  let cond := x :<= p * c in
  k1 <- pydiv m (p ^ 2) ;;
  let fore := k1 *: (2 * p *: (x :/ c) :-: (x :/ c) :^ 2) in
  k2 <- pydiv m ((1 - p) ^ 2) ;;
  let aft := k2 *: ((1 - 2 * p) +: 2 * p *: (x :/ c) :-: (x :/ c) :^ 2) in
  let yc := np_where cond fore aft in
  let cond' := x :<= p * c in
  k3 <- pydiv (2 * m) (p ^ 2) ;;
  let fore' := k3 *: (p -: x :/ c) in
  k4 <- pydiv (2 * m) ((1 - p) ^ 2) ;;
  let aft' := k4 *: (p -: x :/ c) in
  let dyc_dx := np_where cond' fore' aft' in
  Ok (yc, dyc_dx).

(** Lines 29-38. *)
Definition camber (m p c : R) (x : ndarray) : result (ndarray * ndarray) :=
  if Req_dec_T p 0
  then Ok (np_zeros_like x, np_zeros_like x)
  else camber_general m p c x.

Definition naca4_body (m p t c : R) (num_points : Z) : result locals :=
  x <- np_linspace 0 c num_points ;;
  yt <- thickness t c x ;;
  cam <- camber m p c x ;;
  let yc := fst cam in
  let dyc_dx := snd cam in
  let theta := np_arctan dyc_dx in
  let y_upper := yc :+: yt :*: np_cos theta in
  let y_lower := yc :-: yt :*: np_cos theta in
  Ok (Locals x yt yc dyc_dx theta y_upper y_lower).

Definition naca4 (m p t c : R) (num_points : Z)
  : result (ndarray * ndarray * ndarray) :=
  l <- naca4_body m p t c num_points ;;
  Ok (x l, y_upper l, y_lower l).

Close Scope np_scope.

(** ** The specification's formulas

    Written from the specification, over the reals, to be compared with
    what the body computes. *)

(** Station [i] of [n]: [x_i = i/(n-1) * c]. *)
Definition station (c : R) (n : Z) (i : nat) : R :=
  INR i / (IZR n - 1) * c.

Definition yt_formula (t c x : R) : R :=
  (t / 0.20) * c * (0.2969 * sqrt (x / c) - 0.1260 * (x / c)
                    - 0.3516 * (x / c) ^ 2 + 0.2843 * (x / c) ^ 3
                    - 0.1015 * (x / c) ^ 4).

Definition yc_fore (m p c x : R) : R :=
  (m / p ^ 2) * (2 * p * (x / c) - (x / c) ^ 2).

Definition yc_aft (m p c x : R) : R :=
  (m / (1 - p) ^ 2) * ((1 - 2 * p) + 2 * p * (x / c) - (x / c) ^ 2).

Definition dyc_fore (m p c x : R) : R :=
  (2 * m / p ^ 2) * (p - x / c).

Definition dyc_aft (m p c x : R) : R :=
  (2 * m / (1 - p) ^ 2) * (p - x / c).

Definition yc_formula (m p c x : R) : R :=
  if Rle_dec x (p * c) then yc_fore m p c x else yc_aft m p c x.

Definition dyc_formula (m p c x : R) : R :=
  if Rle_dec x (p * c) then dyc_fore m p c x else dyc_aft m p c x.

(** ** What the body computes at one station

    The same operations as the array expressions of the source, on one
    element [xi] of [x]. *)

Declare Scope f64_scope.
Delimit Scope f64_scope with f64.
Notation "a + b" := (Np.add a b) : f64_scope.
Notation "a - b" := (Np.sub a b) : f64_scope.
Notation "a * b" := (Np.mul a b) : f64_scope.
Notation "a / b" := (Np.div a b) : f64_scope.
Notation "a ^ k" := (Np.power a k) : f64_scope.
Notation "- a" := (Np.neg a) : f64_scope.

Definition yt_station (t c : R) (xi : float64) : float64 :=
  (Fin (t / 0.20 * c)
   * (Fin 0.2969 * Np.sqrt (xi / Fin c) - Fin 0.1260 * (xi / Fin c)
      - Fin 0.3516 * (xi / Fin c) ^ 2 + Fin 0.2843 * (xi / Fin c) ^ 3
      - Fin 0.1015 * (xi / Fin c) ^ 4))%f64.

Definition yc_fore_station (m p c : R) (xi : float64) : float64 :=
  (Fin (m / p ^ 2)
   * (Fin (2 * p) * (xi / Fin c) - (xi / Fin c) ^ 2))%f64.

Definition yc_aft_station (m p c : R) (xi : float64) : float64 :=
  (Fin (m / (1 - p) ^ 2)
   * (Fin (1 - 2 * p) + Fin (2 * p) * (xi / Fin c)
      - (xi / Fin c) ^ 2))%f64.

Definition yc_station (m p c : R) (xi : float64) : float64 :=
  if Np.le xi (Fin (p * c))
  then yc_fore_station m p c xi
  else yc_aft_station m p c xi.

Definition dyc_station (m p c : R) (xi : float64) : float64 :=
  if Np.le xi (Fin (p * c))
  then (Fin (2 * m / p ^ 2) * (Fin p - xi / Fin c))%f64
  else (Fin (2 * m / (1 - p) ^ 2) * (Fin p - xi / Fin c))%f64.

(** The surface offset [yt * cos(arctan(dyc_dx))] at one station. *)
Definition offset (yti di : float64) : float64 :=
  (yti * Np.cos (Np.arctan di))%f64.

(** The camber line and its slope at one station, for either branch of
    [if p == 0]. *)
Definition yc_at (m p c : R) (xi : float64) : float64 :=
  if Req_dec_T p 0 then Fin 0 else yc_station m p c xi.

Definition dyc_at (m p c : R) (xi : float64) : float64 :=
  if Req_dec_T p 0 then Fin 0 else dyc_station m p c xi.

(** The two surfaces at one station. *)
Definition upper_station (m p t c : R) (xi : float64) : float64 :=
  (yc_at m p c xi + offset (yt_station t c xi) (dyc_at m p c xi))%f64.

Definition lower_station (m p t c : R) (xi : float64) : float64 :=
  (yc_at m p c xi - offset (yt_station t c xi) (dyc_at m p c xi))%f64.

(** The locals of a call that returns, each as a map over the stations. *)
Definition locals_of (m p t c : R) (xs : ndarray) : locals :=
  Locals xs
         (map (yt_station t c) xs)
         (map (yc_at m p c) xs)
         (map (dyc_at m p c) xs)
         (map (fun xi => Np.arctan (dyc_at m p c xi)) xs)
         (map (upper_station m p t c) xs)
         (map (lower_station m p t c) xs).

(** Every station is a finite number whose ratio to a nonzero chord lies
    in [[0, 1]]. *)
Definition on_chord (c : R) (xi : float64) : Prop :=
  exists r, xi = Fin r /\ (c = 0 -> r = 0) /\ (c <> 0 -> 0 <= r / c <= 1).

(** The stations of a call with at least two samples, by the
    specification's formula. *)
Definition stations (c : R) (n : Z) : ndarray :=
  map (fun i => Fin (station c n i)) (seq 0 (Z.to_nat n)).

(** ** The range of the idealisation

    Real arithmetic stands for binary64 arithmetic only while no scalar
    of the source leaves the finite, nonzero binary64 numbers.  It does
    at the ends of the range: [p**2] underflows to [0.0] for [p = 1e-200],
    and [m / p**2] then raises [ZeroDivisionError]; [p**2] raises
    [OverflowError] for [p = 1e200]; [(t / 0.20) * c] is [inf] for
    [t = 1e308] and [c = 10]; and [np.linspace] refuses a count that it
    cannot allocate.  A parameter between [1e-100] and [1e100] in
    absolute value keeps every scalar of lines 27-38 in range, its own
    square included. *)

Definition tiny : R := / 10 ^ 100.
Definition huge : R := 10 ^ 100.

Definition ordinary (r : R) : Prop := tiny <= Rabs r <= huge.

(** A camber position that takes the [p == 0] branch, or one whose
    square is in range. *)
Definition zero_or_ordinary (p : R) : Prop := p = 0 \/ ordinary p.

(** A sample count that fits in memory. *)
Definition max_samples : Z := 1000000.

(** [a == b] on two array entries: false as soon as one of them is NaN. *)
Definition np_eq (a b : float64) : bool := Np.le a b && Np.le b a.

(** ** [plot_naca4]: the curves

    Line 48 calls [naca4] with the default [num_points = 1000]; lines
    51-53 hand three curves to [plt.plot], each with its format and its
    label.  [plot_naca4_curves] is these lines and no more: the rendering
    is matplotlib's and is not modelled, and the title of line 56, which
    has exceptions of its own ([int] of an infinite or NaN product), is
    [Script.plot_title] below. *)

Module Plot.

Import Stdlib.Strings.String.

Record curve : Type := Curve {
  xdata : ndarray;
  ydata : ndarray;
  fmt : string;
  label : string
}.

Definition plot_naca4_curves (m p t c : R) : result (list curve) :=
  r <- naca4 m p t c 1000 ;;
  let x := fst (fst r) in
  let y_upper := snd (fst r) in
  let y_lower := snd r in
  Ok [Curve x y_upper "b" "Upper Surface";
      Curve x y_lower "r" "Lower Surface";
      Curve x (np_zeros_like x) "k--" "Chord Line"].

End Plot.

(** ** The title and the script (lines 56 and 64-69)

    The title truncates the products [m*100], [p*10] and [t*100] to
    integers, so here rounding decides the result: this part is modelled
    on binary64 floats with their exact IEEE operations, not on the reals.
    [int(...)] of a string is Python's builtin; the script's decoding takes
    it as the parameter [py_int]. *)

Module Script.

Import Stdlib.Floats.Floats.
Import Stdlib.Strings.String Stdlib.Strings.Ascii.
Local Open Scope Z_scope.

Inductive exn : Type :=
| IndexError
| ValueError
| OverflowError.

Inductive result (A : Type) : Type :=
| Ok (a : A)
| Raise (e : exn).

Arguments Ok {A} a.
Arguments Raise {A} e.

Definition bind {A B : Type} (r : result A) (k : A -> result B) : result B :=
  match r with
  | Ok a => k a
  | Raise e => Raise e
  end.

Notation "x <~ r ;; k" := (bind r (fun x => k))
  (at level 61, r at next level, right associativity).

(** An int literal used as a float operand: [100] in [m*100]. *)
Definition float_of_literal (n : Z) : float :=
  PrimFloat.of_uint63 (Uint63.of_Z n).

Definition SF_of_int (n : Z) : spec_float :=
  match n with
  | Z0 => S754_zero false
  | Zpos k => S754_finite false k 0
  | Zneg k => S754_finite true k 0
  end.

(** [a / b] for two Python ints, [b] a positive literal: the quotient
    rounded once to the nearest float, [OverflowError] when it is too
    large for one. *)
Definition int_truediv (a : Z) (b : positive) : result float :=
  match SFdiv prec emax (SF_of_int a) (SF_of_int (Zpos b)) with
  | S754_infinity _ => Raise OverflowError
  | q => Ok (SF2Prim q)
  end.

(** [int(f)] for a float [f]: truncation toward zero. *)
Definition int_of_float (f : float) : result Z :=
  match Prim2SF f with
  | S754_zero _ => Ok 0
  | S754_finite s m e =>
      let a := if 0 <=? e then Z.shiftl (Zpos m) e
               else Z.shiftr (Zpos m) (- e) in
      Ok (if s then - a else a)
  | S754_infinity _ => Raise OverflowError
  | S754_nan => Raise ValueError
  end.

Fixpoint zeros (k : nat) : string :=
  match k with
  | O => EmptyString
  | S k' => String "0"%char (zeros k')
  end.

(** The format specs [:01] and [:02]: the decimal digits, padded with
    zeros after the sign up to the width. *)
Definition format_zero_padded (width : nat) (n : Z) : string :=
  let sign := if n <? 0 then "-"%string else EmptyString in
  let digits :=
    DecimalString.NilZero.string_of_uint (N.to_uint (Z.abs_N n)) in
  (sign ++ zeros (width - length sign - length digits) ++ digits)%string.

(** Line 56. *)
Definition plot_title (m p t : float) : result string :=
  a <~ int_of_float (PrimFloat.mul m (float_of_literal 100)) ;;
  b <~ int_of_float (PrimFloat.mul p (float_of_literal 10)) ;;
  c <~ int_of_float (PrimFloat.mul t (float_of_literal 100)) ;;
  Ok ("NACA " ++ format_zero_padded 1 a ++ format_zero_padded 1 b
      ++ format_zero_padded 2 c)%string.

(** [s[i]] for a literal index [i >= 0], and [s[i:]]. *)
Definition str_index (s : string) (i : nat) : result string :=
  match get i s with
  | Some ch => Ok (String ch EmptyString)
  | None => Raise IndexError
  end.

Definition str_from (s : string) (i : nat) : string :=
  substring i (length s - i) s.

(** Lines 67-69. *)
Definition designator_params (py_int : string -> result Z) (NACA : string)
  : result (float * float * float) :=
  s0 <~ str_index NACA 0 ;;
  d0 <~ py_int s0 ;;
  m <~ int_truediv d0 100 ;;
  s1 <~ str_index NACA 1 ;;
  d1 <~ py_int s1 ;;
  p <~ int_truediv d1 10 ;;
  d23 <~ py_int (str_from NACA 2) ;;
  t <~ int_truediv d23 100 ;;
  Ok (m, p, t).

(** The title that [plot_naca4] computes from the script's parameters. *)
Definition title_of_designator (py_int : string -> result Z)
    (NACA : string) : result string :=
  mpt <~ designator_params py_int NACA ;;
  plot_title (fst (fst mpt)) (snd (fst mpt)) (snd mpt).

(** Strings of ASCII decimal digits, on which [int] is the decimal
    value. *)
Definition digit_value (ch : ascii) : option Z :=
  let k := Z.of_nat (nat_of_ascii ch) in
  if (48 <=? k) && (k <=? 57) then Some (k - 48) else None.

Fixpoint decimal_from (acc : Z) (s : string) : option Z :=
  match s with
  | EmptyString => Some acc
  | String ch s' =>
      match digit_value ch with
      | Some v => decimal_from (10 * acc + v) s'
      | None => None
      end
  end.

Definition decimal (s : string) : option Z :=
  match s with
  | EmptyString => None
  | _ => decimal_from 0 s
  end.

(** An [int] for digit strings only, to run the script on examples. *)
Definition int_of_digits (s : string) : result Z :=
  match decimal s with
  | Some n => Ok n
  | None => Raise ValueError
  end.

Definition digit_char (k : nat) : ascii := ascii_of_nat (48 + k).

(** The designator with the four digits [a], [b], [c], [d]. *)
Definition designator (a b c d : nat) : string :=
  String (digit_char a) (String (digit_char b)
    (String (digit_char c) (String (digit_char d) EmptyString))).

(** [int(d / k * k)] for an int [d] and a literal [k]. *)
Definition there_and_back (d : Z) (k : positive) : result Z :=
  f <~ int_truediv d k ;;
  int_of_float (PrimFloat.mul f (float_of_literal (Zpos k))).

Definition returns_int (r : result Z) (n : Z) : bool :=
  match r with
  | Ok v => v =? n
  | Raise _ => false
  end.

End Script.

(** ** The body on binary64 numbers

    The same lines 26-45 with every operation rounded as IEEE 754
    prescribes, for the inputs where overflow or underflow decides the
    result.  [+], [-], [*], [/] and [sqrt] are the correctly rounded
    operations; [pow], [arctan] and [cos] are the platform library's and
    stay a parameter, of which only the values that the C standard fixes
    are used.  Python's scalar [**] raises [OverflowError] where the
    library overflows, and scalar [/] raises [ZeroDivisionError] on a
    zero divisor; the array operations raise nothing.

    A decimal literal denotes the nearest binary64 number, as it does in
    Python. *)

Set Warnings "-inexact-float".

Module B64.

Import Stdlib.Floats.Floats.
Local Open Scope float_scope.

Record mathlib : Type := Mathlib {
  pow : float -> float -> float;
  arctan : float -> float;
  cos : float -> float
}.

(** What Annex F of the C standard fixes at zero: [pow(0, y) = 0] for
    [y > 0], [atan(0) = 0], [cos(0) = 1]. *)
Definition annex_f (L : mathlib) : Prop :=
  pow L 0 3 = 0 /\ pow L 0 4 = 0 /\ arctan L 0 = 0 /\ cos L 0 = 1.

(** A library that has these values and NaN everywhere else. *)
Definition annex_f_table : mathlib :=
  Mathlib (fun a _ => if is_zero a then 0 else nan)
          (fun a => if is_zero a then a else nan)
          (fun a => if is_zero a then 1 else nan).

Inductive exn : Type :=
| ZeroDivisionError
| OverflowError
| ValueError.

Inductive result (A : Type) : Type :=
| Ok (a : A)
| Raise (e : exn).

Arguments Ok {A} a.
Arguments Raise {A} e.

Definition bind {A B : Type} (r : result A) (k : A -> result B) : result B :=
  match r with
  | Ok a => k a
  | Raise e => Raise e
  end.

Notation "x <== r ;; k" := (bind r (fun x => k))
  (at level 61, r at next level, right associativity).

(** Python [a / b] on two floats: only a zero divisor raises, a quotient
    too large is [inf]. *)
Definition py_div (a b : float) : result float :=
  if is_zero b then Raise ZeroDivisionError else Ok (a / b).

(** Python [a ** 2] on a float, as [float_pow] computes it: NaN,
    infinities, zero and one are answered without the library, a negative
    base is negated first, and an infinite result of the library is
    [OverflowError]; a result that underflows to zero is returned. *)
Definition py_square (L : mathlib) (a : float) : result float :=
  if is_nan a then Ok a
  else if is_infinity a then Ok (abs a)
  else if is_zero a then Ok 0
  else if abs a =? 1 then Ok 1
  else
    let r := pow L (abs a) 2 in
    if is_infinity r then Raise OverflowError else Ok r.

(** The scalar quotients of lines 34-38 are defined: [p**2] and
    [(1 - p)**2] evaluate, and to nonzero numbers. *)
Definition quotients_defined (L : mathlib) (p : float) : Prop :=
  exists a b,
    py_square L p = Ok a /\ is_zero a = false
    /\ py_square L (1 - p) = Ok b /\ is_zero b = false.

Definition float_of_int (n : Z) : float :=
  PrimFloat.of_uint63 (Uint63.of_Z n).

Definition ndarray : Type := list float.

Definition map2 (f : float -> float -> float) (a b : ndarray) : ndarray :=
  map (fun ab => f (fst ab) (snd ab)) (combine a b).

Fixpoint np_where (cond : list bool) (a b : ndarray) : ndarray :=
  match cond, a, b with
  | k :: cond', u :: a', v :: b' =>
      (if k then u else v) :: np_where cond' a' b'
  | _, _, _ => []
  end.

Definition set_last (y : ndarray) (v : float) : ndarray :=
  match y with
  | [] => []
  | _ => removelast y ++ [v]
  end.

Definition np_arange (num : Z) : ndarray :=
  map (fun i => float_of_int (Z.of_nat i)) (seq 0 (Z.to_nat num)).

(** [np.linspace(start, stop, num)]: a negative count is [ValueError],
    and a count that is no C long is [OverflowError].  (A smaller count
    that does not fit in memory is refused as well; that is not
    modelled.) *)
Definition np_linspace (start stop : float) (num : Z) : result ndarray :=
  if (num <? 0)%Z then Raise ValueError
  else if (2 ^ 63 <=? num)%Z then Raise OverflowError
  else
    let div := (num - 1)%Z in
    let delta := stop - start in
    let y := np_arange num in
    let y :=
      if (0 <? div)%Z then
        let step := delta / float_of_int div in
        if step =? 0
        then map (fun e => e * delta)
                 (map (fun e => e / float_of_int div) y)
        else map (fun e => e * step) y
      else map (fun e => e * delta) y in
    let y := map (fun e => e + start) y in
    Ok (if (1 <? num)%Z then set_last y stop else y).

(** Line 27.  On an array [**2] is numpy's [square], one multiplication;
    [**3] and [**4] go to the library's [pow]. *)
Definition thickness (L : mathlib) (t c : float) (x : ndarray)
  : result ndarray :=
  k <== py_div t 0.20 ;;
  let u := map (fun e => e / c) x in
  Ok (map (fun e => (k * c) * e)
        (map2 sub
           (map2 add
              (map2 sub
                 (map2 sub (map (fun e => 0.2969 * sqrt e) u)
                           (map (fun e => 0.1260 * e) u))
                 (map (fun e => 0.3516 * (e * e)) u))
              (map (fun e => 0.2843 * pow L e 3) u))
           (map (fun e => 0.1015 * pow L e 4) u))).

(** Lines 33-38. *)
Definition camber_general (L : mathlib) (m p c : float) (x : ndarray)
  : result (ndarray * ndarray) :=
  let u := map (fun e => e / c) x in
  let cond := map (fun e => e <=? p * c) x in
  p2 <== py_square L p ;;
  k1 <== py_div m p2 ;;
  let fore :=
    map (fun e => k1 * e)
        (map2 sub (map (fun e => 2 * p * e) u) (map (fun e => e * e) u)) in
  q2 <== py_square L (1 - p) ;;
  k2 <== py_div m q2 ;;
  let aft :=
    map (fun e => k2 * e)
        (map2 sub (map (fun e => (1 - 2 * p) + e)
                       (map (fun e => 2 * p * e) u))
                  (map (fun e => e * e) u)) in
  let yc := np_where cond fore aft in
  p2' <== py_square L p ;;
  k3 <== py_div (2 * m) p2' ;;
  let fore' := map (fun e => k3 * e) (map (fun e => p - e) u) in
  q2' <== py_square L (1 - p) ;;
  k4 <== py_div (2 * m) q2' ;;
  let aft' := map (fun e => k4 * e) (map (fun e => p - e) u) in
  Ok (yc, np_where cond fore' aft').

(** Lines 29-38. *)
Definition camber (L : mathlib) (m p c : float) (x : ndarray)
  : result (ndarray * ndarray) :=
  if p =? 0
  then Ok (map (fun _ => 0) x, map (fun _ => 0) x)
  else camber_general L m p c x.

(** Lines 26-45. *)
Definition naca4 (L : mathlib) (m p t c : float) (num_points : Z)
  : result (ndarray * ndarray * ndarray) :=
  x <== np_linspace 0 c num_points ;;
  yt <== thickness L t c x ;;
  cam <== camber L m p c x ;;
  let yc := fst cam in
  let dyc_dx := snd cam in
  let theta := map (arctan L) dyc_dx in
  let y_upper := map2 add yc (map2 mul yt (map (cos L) theta)) in
  let y_lower := map2 sub yc (map2 mul yt (map (cos L) theta)) in
  Ok (x, y_upper, y_lower).

End B64.

(** * Verification *)

(** ** The result monad *)

Lemma bind_Ok {A B : Type} (a : A) (k : A -> result B) :
  bind (Ok a) k = k a.
Proof. reflexivity. Qed.

(** ** Elementwise operations as maps over the station array *)

Section Fusion.
Context {A B C D : Type}.

Lemma map2_map (f : B -> C -> D) (g : A -> B) (h : A -> C) (l : list A) :
  map2 f (map g l) (map h l) = map (fun e => f (g e) (h e)) l.
Proof.
  unfold map2. induction l as [|e l IH]; simpl; [reflexivity|].
  now rewrite IH.
Qed.

End Fusion.

Lemma np_where_map {A : Type} (k : A -> bool) (g h : A -> float64)
    (l : list A) :
  np_where (map k l) (map g l) (map h l)
  = map (fun e => if k e then g e else h e) l.
Proof.
  induction l as [|e l IH]; simpl; [reflexivity|]. now rewrite IH.
Qed.

(** Rewrites an array expression over [x] into one map over [x]. *)
Ltac fuse :=
  repeat (rewrite map_map || rewrite map2_map || rewrite np_where_map).

(** ** Scalar divisions that cannot raise *)

Lemma pydiv_ok (a b : R) : b <> 0 -> pydiv a b = Ok (a / b).
Proof. intros Hb. unfold pydiv. now destruct (Req_dec_T b 0). Qed.

Lemma pydiv_zero (a : R) : pydiv a 0 = Raise ZeroDivisionError.
Proof. unfold pydiv. destruct (Req_dec_T 0 0); [reflexivity | lra]. Qed.

Lemma sq_nonzero (r : R) : r <> 0 -> r ^ 2 <> 0.
Proof. intros Hr. apply pow_nonzero, Hr. Qed.

(** ** The stations *)

Lemma set_last_snoc (l : ndarray) (a v : float64) :
  set_last (l ++ [a]) v = l ++ [v].
Proof.
  unfold set_last. rewrite removelast_last.
  destruct l; reflexivity.
Qed.

Lemma IZR_pred_INR (n : Z) :
  (1 <= n)%Z -> IZR n - 1 = INR (Z.to_nat (n - 1)).
Proof.
  intros Hn. rewrite INR_IZR_INZ, Z2Nat.id by lia.
  now rewrite minus_IZR.
Qed.

(** For at least two samples [np.linspace(0, c, n)] is the list of the
    specification's stations. *)
Lemma np_linspace_stations (c : R) (n : Z) :
  (2 <= n)%Z ->
  np_linspace 0 c n
  = Ok (map (fun i => Fin (station c n i)) (seq 0 (Z.to_nat n))).
Proof.
  intros Hn. unfold np_linspace, np_arange.
  destruct (Z.ltb_spec n 0) as [?|_]; [lia|].
  destruct (Z.ltb_spec 0 (n - 1)) as [_|?]; [|lia].
  destruct (Z.ltb_spec 1 n) as [_|?]; [|lia].
  f_equal.
  assert (Hd : IZR (n - 1) <> 0) by (apply not_0_IZR; lia).
  assert (Hd' : IZR n - 1 <> 0) by (rewrite <- minus_IZR; exact Hd).
  replace (Z.to_nat n) with (S (Z.to_nat (n - 1))) by lia.
  set (k := Z.to_nat (n - 1)).
  assert (Hlast : Fin c = Fin (station c n k)).
  { unfold station, k. rewrite <- IZR_pred_INR by lia. f_equal. now field. }
  destruct (Req_dec_T ((c - 0) / IZR (n - 1)) 0) as [Hz|Hz];
    fuse; rewrite seq_S, !map_app; simpl (map _ [_]);
    rewrite set_last_snoc, Hlast; f_equal;
    apply map_ext; intros i; unfold Np.div, Np.mul, Np.add, station;
    [destruct (Req_dec_T (IZR (n - 1)) 0) as [?|_]; [contradiction|]|];
    f_equal; rewrite minus_IZR; now field.
Qed.

Lemma np_linspace_unit_five :
  np_linspace 0 1 5 = Ok [Fin 0; Fin 0.25; Fin 0.5; Fin 0.75; Fin 1].
Proof.
  rewrite np_linspace_stations by lia. unfold station. simpl.
  repeat f_equal; lra.
Qed.

(** One sample: the station [0]; no sample: the empty array. *)
Lemma np_linspace_one (c : R) : np_linspace 0 c 1 = Ok [Fin 0].
Proof.
  unfold np_linspace, np_arange. simpl. do 2 f_equal. f_equal. ring.
Qed.

Lemma np_linspace_none (c : R) : np_linspace 0 c 0 = Ok [].
Proof. reflexivity. Qed.

Lemma np_linspace_negative (c : R) (n : Z) :
  (n < 0)%Z -> np_linspace 0 c n = Raise ValueError.
Proof.
  intros Hn. unfold np_linspace.
  destruct (Z.ltb_spec n 0); [reflexivity | lia].
Qed.

Lemma station_on_chord (c : R) (n : Z) (i : nat) :
  (2 <= n)%Z -> (i < Z.to_nat n)%nat -> on_chord c (Fin (station c n i)).
Proof.
  intros Hn Hi. exists (station c n i). split; [reflexivity|].
  assert (Hk : 0 < IZR n - 1).
  { rewrite <- minus_IZR. apply IZR_lt. lia. }
  assert (Hik : 0 <= INR i <= IZR n - 1).
  { split; [apply pos_INR|]. rewrite IZR_pred_INR by lia.
    apply le_INR. lia. }
  unfold station. split.
  - intros ->. ring.
  - intros Hc.
    replace (INR i / (IZR n - 1) * c / c) with (INR i / (IZR n - 1))
      by (field; split; lra).
    split.
    + apply Rmult_le_pos; [lra|]. left. now apply Rinv_0_lt_compat.
    + apply (Rmult_le_reg_r (IZR n - 1)); [exact Hk|].
      replace (INR i / (IZR n - 1) * (IZR n - 1)) with (INR i)
        by (field; lra).
      lra.
Qed.

Lemma np_linspace_ok (c : R) (n : Z) :
  (0 <= n)%Z ->
  exists xs, np_linspace 0 c n = Ok xs
             /\ length xs = Z.to_nat n
             /\ Forall (on_chord c) xs.
Proof.
  intros Hn.
  destruct (Z.eq_dec n 0) as [->|H0];
    [|destruct (Z.eq_dec n 1) as [->|H1]].
  - exists []. rewrite np_linspace_none. repeat split. constructor.
  - exists [Fin 0]. rewrite np_linspace_one. repeat split.
    constructor; [|constructor].
    exists 0. split; [reflexivity|]. split; [reflexivity|].
    intros Hc. unfold Rdiv. rewrite Rmult_0_l. lra.
  - eexists. rewrite np_linspace_stations by lia.
    split; [reflexivity|]. split.
    + now rewrite length_map, length_seq.
    + apply Forall_forall. intros xi Hin.
      apply in_map_iff in Hin. destruct Hin as [i [<- Hi]].
      apply in_seq in Hi. apply station_on_chord; lia.
Qed.

(** ** The body, station by station *)

Lemma thickness_map (t c : R) (xs : ndarray) :
  thickness t c xs = Ok (map (yt_station t c) xs).
Proof.
  unfold thickness, np_sqrt. rewrite pydiv_ok by lra.
  simpl. f_equal. fuse. reflexivity.
Qed.

Lemma camber_general_map (m p c : R) (xs : ndarray) :
  p <> 0 -> p <> 1 ->
  camber_general m p c xs
  = Ok (map (yc_station m p c) xs, map (dyc_station m p c) xs).
Proof.
  intros Hp0 Hp1. unfold camber_general.
  rewrite !pydiv_ok by (apply sq_nonzero; lra).
  simpl. fuse. reflexivity.
Qed.

Lemma camber_general_raises_0 (m c : R) (xs : ndarray) :
  camber_general m 0 c xs = Raise ZeroDivisionError.
Proof.
  unfold camber_general.
  replace (0 ^ 2) with 0 by ring. now rewrite pydiv_zero.
Qed.

Lemma camber_general_raises_1 (m c : R) (xs : ndarray) :
  camber_general m 1 c xs = Raise ZeroDivisionError.
Proof.
  unfold camber_general.
  rewrite pydiv_ok by (apply sq_nonzero; lra).
  replace ((1 - 1) ^ 2) with 0 by ring. now rewrite pydiv_zero.
Qed.

Lemma camber_symmetric (m c : R) (xs : ndarray) :
  camber m 0 c xs = Ok (np_zeros_like xs, np_zeros_like xs).
Proof. unfold camber. destruct (Req_dec_T 0 0); [reflexivity | lra]. Qed.

Lemma camber_cambered (m p c : R) (xs : ndarray) :
  p <> 0 -> camber m p c xs = camber_general m p c xs.
Proof. intros Hp. unfold camber. now destruct (Req_dec_T p 0). Qed.

Lemma camber_map (m p c : R) (xs : ndarray) :
  p <> 1 ->
  camber m p c xs = Ok (map (yc_at m p c) xs, map (dyc_at m p c) xs).
Proof.
  intros Hp1. unfold camber, yc_at, dyc_at.
  destruct (Req_dec_T p 0) as [Hp0|Hp0]; [reflexivity|].
  now apply camber_general_map.
Qed.

Lemma naca4_body_locals (m p t c : R) (n : Z) (xs : ndarray) :
  p <> 1 ->
  np_linspace 0 c n = Ok xs ->
  naca4_body m p t c n = Ok (locals_of m p t c xs).
Proof.
  intros Hp1 Hxs. unfold naca4_body.
  rewrite Hxs, bind_Ok, thickness_map, bind_Ok.
  rewrite camber_map, bind_Ok by exact Hp1.
  cbn [fst snd]. unfold np_cos, np_arctan, locals_of. fuse. reflexivity.
Qed.

Lemma naca4_body_returns (m p t c : R) (n : Z) :
  (0 <= n)%Z -> p <> 1 ->
  exists xs, np_linspace 0 c n = Ok xs
             /\ length xs = Z.to_nat n
             /\ Forall (on_chord c) xs
             /\ naca4_body m p t c n = Ok (locals_of m p t c xs).
Proof.
  intros Hn Hp1.
  destruct (np_linspace_ok c n Hn) as [xs [Hxs [Hlen Hall]]].
  exists xs. repeat split; try assumption.
  now apply naca4_body_locals.
Qed.

Lemma naca4_of_body (m p t c : R) (n : Z) (l : locals) :
  naca4_body m p t c n = Ok l ->
  naca4 m p t c n = Ok (x l, y_upper l, y_lower l).
Proof. intros H. unfold naca4. now rewrite H. Qed.

(** ** Finite values: the body's arithmetic is real arithmetic *)

Lemma yt_station_real (t c r : R) :
  c <> 0 -> 0 <= r / c ->
  yt_station t c (Fin r) = Fin (yt_formula t c r).
Proof.
  intros Hc Hr. unfold yt_station, yt_formula, Np.div, Np.sqrt.
  destruct (Req_dec_T c 0) as [?|_]; [contradiction|].
  destruct (Rlt_dec (r / c) 0) as [?|_]; [lra|].
  reflexivity.
Qed.

Lemma yc_station_real (m p c r : R) :
  c <> 0 -> yc_station m p c (Fin r) = Fin (yc_formula m p c r).
Proof.
  intros Hc.
  unfold yc_station, yc_formula, yc_fore_station, yc_aft_station,
    Np.le, Np.div.
  destruct (Req_dec_T c 0) as [?|_]; [contradiction|].
  destruct (Rle_dec r (p * c)); reflexivity.
Qed.

Lemma dyc_station_real (m p c r : R) :
  c <> 0 -> dyc_station m p c (Fin r) = Fin (dyc_formula m p c r).
Proof.
  intros Hc. unfold dyc_station, dyc_formula, Np.le, Np.div.
  destruct (Req_dec_T c 0) as [?|_]; [contradiction|].
  destruct (Rle_dec r (p * c)); reflexivity.
Qed.

(** With a zero chord every ratio [x / c] is [0 / 0]. *)
Lemma yt_station_nan (t : R) : yt_station t 0 (Fin 0) = NaN.
Proof.
  unfold yt_station, Np.div.
  destruct (Req_dec_T 0 0) as [_|?]; [|lra]. reflexivity.
Qed.

(** ** Lists read by index *)

Lemma nth_error_map_some {A B : Type} (f : A -> B) (l : list A) (i : nat)
    (a : A) :
  nth_error l i = Some a -> nth_error (map f l) i = Some (f a).
Proof. intros H. now rewrite nth_error_map, H. Qed.

Lemma nth_error_in_range {A : Type} (l : list A) (i : nat) :
  (i < length l)%nat -> exists a, nth_error l i = Some a.
Proof.
  intros Hi. destruct (nth_error l i) as [a|] eqn:E; [now exists a|].
  apply nth_error_None in E. lia.
Qed.

(** ** Calls with at least two samples *)

Lemma naca4_returns_stations (m p t c : R) (n : Z) :
  (2 <= n)%Z -> p <> 1 ->
  naca4 m p t c n
  = Ok (stations c n,
        map (upper_station m p t c) (stations c n),
        map (lower_station m p t c) (stations c n)).
Proof.
  intros Hn Hp1.
  pose proof (np_linspace_stations c n Hn) as Hxs.
  apply naca4_body_locals with (m := m) (p := p) (t := t) in Hxs;
    [|exact Hp1].
  now apply naca4_of_body in Hxs.
Qed.

Lemma nth_error_stations (c : R) (n : Z) (i : nat) :
  (i < Z.to_nat n)%nat ->
  nth_error (stations c n) i = Some (Fin (station c n i)).
Proof.
  intros Hi. unfold stations. rewrite nth_error_map, nth_error_seq.
  destruct (Nat.ltb_spec i (Z.to_nat n)); [reflexivity | lia].
Qed.

Lemma station_last (c : R) (n : Z) :
  (2 <= n)%Z -> station c n (Z.to_nat n - 1) = c.
Proof.
  intros Hn. unfold station.
  replace (Z.to_nat n - 1)%nat with (Z.to_nat (n - 1)) by lia.
  rewrite <- IZR_pred_INR by lia.
  assert (IZR n - 1 <> 0).
  { rewrite <- minus_IZR. apply not_0_IZR. lia. }
  now field.
Qed.

Lemma station_zero_chord (n : Z) (i : nat) : station 0 n i = 0.
Proof. unfold station. ring. Qed.

(** ** Ordinary magnitudes *)

Lemma ordinary_between (r : R) :
  / 10 ^ 100 <= r <= 10 ^ 100 -> ordinary r.
Proof.
  intros [Hlo Hhi]. unfold ordinary, tiny, huge.
  rewrite Rabs_pos_eq by lra. lra.
Qed.

Lemma Rabs_between (r b : R) : - b <= r <= b -> Rabs r <= b.
Proof. intros [Hlo Hhi]. apply Rabs_le. lra. Qed.

(** ** Equality of array entries *)

Lemma np_eq_refl (a : float64) : a <> NaN -> np_eq a a = true.
Proof.
  intros Ha. destruct a as [r|s|]; unfold np_eq, Np.le.
  - destruct (Rle_dec r r) as [_|Hn]; [reflexivity|].
    exfalso. apply Hn. lra.
  - now destruct s.
  - contradiction.
Qed.

Lemma neg_nan (a : float64) : Np.neg a = NaN -> a = NaN.
Proof. now destruct a. Qed.

(** ** The body on binary64 numbers: what returns and what raises *)

Section Binary64.
Import Stdlib.Floats.Floats.
Variable L : B64.mathlib.
Variables m p t c : float.

Lemma b64_nth_error_map2 (f : float -> float -> float)
    (a b : B64.ndarray) (i : nat) :
  nth_error (B64.map2 f a b) i
  = match nth_error a i, nth_error b i with
    | Some u, Some v => Some (f u v)
    | _, _ => None
    end.
Proof.
  unfold B64.map2. revert b i.
  induction a as [|u a IH]; intros b i.
  - now destruct i.
  - destruct b as [|v b].
    + destruct i; cbn; [reflexivity|]. now destruct (nth_error a i).
    + destruct i; cbn; [reflexivity|]. apply IH.
Qed.

Lemma b64_length_map2 (f : float -> float -> float) (a b : B64.ndarray) :
  length a = length b -> length (B64.map2 f a b) = length a.
Proof.
  intros H. unfold B64.map2. rewrite length_map, length_combine. lia.
Qed.

Lemma b64_length_np_where (k : list bool) (a b : B64.ndarray) :
  length a = length k -> length b = length k ->
  length (B64.np_where k a b) = length k.
Proof.
  revert a b. induction k as [|h k IH]; intros a b Ha Hb.
  - reflexivity.
  - destruct a as [|u a]; [discriminate|].
    destruct b as [|v b]; [discriminate|].
    cbn. f_equal. apply IH; [now injection Ha | now injection Hb].
Qed.

Lemma b64_length_set_last (y : B64.ndarray) (v : float) :
  length (B64.set_last y v) = length y.
Proof.
  destruct y as [|a y]; [reflexivity|].
  unfold B64.set_last.
  rewrite removelast_firstn_len, length_app, length_firstn.
  cbn [length]. lia.
Qed.

(** [np.linspace] raises for a negative count and returns [n] stations
    for every other count that is a C long. *)
Lemma b64_linspace_negative (a b : float) (n : Z) :
  (n < 0)%Z -> B64.np_linspace a b n = B64.Raise B64.ValueError.
Proof.
  intros Hn. unfold B64.np_linspace.
  destruct (Z.ltb_spec n 0) as [_|?]; [reflexivity | lia].
Qed.

Lemma b64_linspace_returns (a b : float) (n : Z) :
  (0 <= n < 2 ^ 63)%Z ->
  exists xs, B64.np_linspace a b n = B64.Ok xs /\ length xs = Z.to_nat n.
Proof.
  intros [Hlo Hhi]. unfold B64.np_linspace, B64.np_arange.
  destruct (Z.ltb_spec n 0) as [?|_]; [lia|].
  destruct (Z.leb_spec (2 ^ 63) n) as [?|_]; [lia|].
  eexists. split; [reflexivity|].
  destruct (1 <? n)%Z; [rewrite b64_length_set_last|];
    destruct (0 <? n - 1)%Z;
    try destruct (_ =? _)%float;
    now rewrite !length_map, length_seq.
Qed.

(** Line 27 never raises: its only scalar division is by [0.20]. *)
Lemma b64_thickness_returns (xs : B64.ndarray) :
  exists yt, B64.thickness L t c xs = B64.Ok yt /\ length yt = length xs.
Proof.
  eexists. split; [reflexivity|].
  repeat (rewrite b64_length_map2 || rewrite length_map); reflexivity.
Qed.

(** Lines 30-31. *)
Lemma b64_camber_symmetric (xs : B64.ndarray) :
  (p =? 0)%float = true ->
  B64.camber L m p c xs
  = B64.Ok (map (fun _ => 0%float) xs, map (fun _ => 0%float) xs).
Proof. intros Hp. unfold B64.camber. now rewrite Hp. Qed.

(** Lines 33-38 return as soon as the two squares evaluate, to nonzero
    numbers. *)
Lemma b64_camber_general_returns (xs : B64.ndarray) :
  B64.quotients_defined L p ->
  exists yc dyc,
    B64.camber_general L m p c xs = B64.Ok (yc, dyc)
    /\ length yc = length xs /\ length dyc = length xs.
Proof.
  intros [a [b [Ha [Ha0 [Hb Hb0]]]]].
  unfold B64.camber_general, B64.py_div.
  rewrite Ha, Hb. cbn [B64.bind]. rewrite Ha0, Hb0. cbn [B64.bind].
  eexists; eexists. split; [reflexivity|].
  split; rewrite b64_length_np_where;
    repeat (rewrite b64_length_map2 || rewrite length_map); reflexivity.
Qed.

(** And only then. *)
Lemma b64_camber_general_inv (xs : B64.ndarray)
    (r : B64.ndarray * B64.ndarray) :
  B64.camber_general L m p c xs = B64.Ok r -> B64.quotients_defined L p.
Proof.
  unfold B64.camber_general, B64.py_div.
  destruct (B64.py_square L p) as [a|e] eqn:Ha; cbn [B64.bind];
    [|discriminate].
  destruct (is_zero a) eqn:Ha0; cbn [B64.bind]; [discriminate|].
  destruct (B64.py_square L (1 - p)) as [b|e] eqn:Hb; cbn [B64.bind];
    [|discriminate].
  destruct (is_zero b) eqn:Hb0; cbn [B64.bind]; [discriminate|].
  intros _. exists a, b. repeat split; assumption.
Qed.

Lemma b64_camber_returns (xs : B64.ndarray) :
  (p =? 0)%float = true \/ B64.quotients_defined L p ->
  exists yc dyc,
    B64.camber L m p c xs = B64.Ok (yc, dyc)
    /\ length yc = length xs /\ length dyc = length xs.
Proof.
  intros H. destruct (p =? 0)%float eqn:Hp.
  - rewrite b64_camber_symmetric by exact Hp.
    eexists; eexists. split; [reflexivity|].
    now rewrite !length_map.
  - destruct H as [?|H]; [discriminate|].
    unfold B64.camber. rewrite Hp.
    now apply b64_camber_general_returns.
Qed.

(** Lines 40-45 raise nothing. *)
Lemma b64_naca4_returns (n : Z) :
  (0 <= n < 2 ^ 63)%Z ->
  (p =? 0)%float = true \/ B64.quotients_defined L p ->
  exists xs yu yl,
    B64.naca4 L m p t c n = B64.Ok (xs, yu, yl)
    /\ length xs = Z.to_nat n
    /\ length yu = Z.to_nat n
    /\ length yl = Z.to_nat n.
Proof.
  intros Hn Hp.
  destruct (b64_linspace_returns 0 c n Hn) as [xs [Hxs Hlen]].
  destruct (b64_thickness_returns xs) as [yt [Hyt Hlyt]].
  destruct (b64_camber_returns xs Hp) as [yc [dyc [Hcam [Hlyc Hldyc]]]].
  unfold B64.naca4.
  rewrite Hxs. cbn [B64.bind]. rewrite Hyt. cbn [B64.bind].
  rewrite Hcam. cbn [B64.bind fst snd].
  eexists; eexists; eexists. split; [reflexivity|].
  split; [exact Hlen|].
  split; repeat (rewrite b64_length_map2 || rewrite length_map); lia.
Qed.

(** ** IEEE facts used below *)

Lemma SFeqb_refl_finite (s : bool) (k : positive) (e : Z) :
  SFeqb (S754_finite s k e) (S754_finite s k e) = true.
Proof.
  unfold SFeqb, SFcompare.
  destruct s; rewrite Z.compare_refl, Pos.compare_cont_refl; reflexivity.
Qed.

(** [0 + o] and [0 - o] are opposite numbers, or both NaN. *)
Lemma b64_zero_plus_minus (o : float) :
  (is_nan (0 + o) = true /\ is_nan (0 - o) = true)
  \/ (0 + o =? - (0 - o))%float = true.
Proof.
  unfold is_nan.
  rewrite !eqb_spec, !opp_spec, !add_spec, !sub_spec.
  change (Prim2SF 0) with (S754_zero false).
  destruct (Prim2SF o) as [s|s| |s k e].
  - right. now destruct s.
  - right. now destruct s.
  - left. split; reflexivity.
  - right. cbn. rewrite negb_involutive. apply SFeqb_refl_finite.
Qed.

(** NaN absorbs. *)
Lemma b64_nan_add (a : float) : (nan + a = nan)%float.
Proof. apply Prim2SF_inj. now rewrite add_spec. Qed.

Lemma b64_nan_sub (a : float) : (nan - a = nan)%float.
Proof. apply Prim2SF_inj. now rewrite sub_spec. Qed.

Lemma b64_mul_nan (a : float) : (a * nan = nan)%float.
Proof.
  apply Prim2SF_inj. rewrite mul_spec.
  change (Prim2SF nan) with S754_nan.
  now destruct (Prim2SF a).
Qed.

Lemma b64_nan_mul (a : float) : (nan * a = nan)%float.
Proof. apply Prim2SF_inj. now rewrite mul_spec. Qed.

Lemma b64_add_nan (a : float) : (a + nan = nan)%float.
Proof.
  apply Prim2SF_inj. rewrite add_spec.
  change (Prim2SF nan) with S754_nan.
  now destruct (Prim2SF a).
Qed.

Lemma b64_sub_nan (a : float) : (a - nan = nan)%float.
Proof.
  apply Prim2SF_inj. rewrite sub_spec.
  change (Prim2SF nan) with S754_nan.
  now destruct (Prim2SF a).
Qed.

End Binary64.

(** * The claims *)



(** ** Surfaces *)

Lemma locals_of_surfaces (m p t c : R) (xs : ndarray) :
  let l := locals_of m p t c xs in
  theta l = np_arctan (dyc_dx l)
  /\ y_upper l = (yc l :+: yt l :*: np_cos (theta l))%np
  /\ y_lower l = (yc l :-: yt l :*: np_cos (theta l))%np.
Proof.
  cbn [locals_of theta dyc_dx y_upper y_lower yc yt].
  unfold np_arctan, np_cos. fuse. repeat split.
Qed.

(** C4. In a call that returns, at every station the inclination is
    [arctan(dyc_dx)] and the surfaces are [yc + yt * cos(theta)] and
    [yc - yt * cos(theta)]. *)
Theorem surfaces_from_camber_and_thickness (m p t c : R) (n : Z) :
  (0 <= n)%Z -> p <> 1 ->
  exists l,
    naca4_body m p t c n = Ok l
    /\ naca4 m p t c n = Ok (x l, y_upper l, y_lower l)
    /\ length (x l) = Z.to_nat n
    /\ forall i, (i < Z.to_nat n)%nat ->
         exists yci yti di thi,
           nth_error (yc l) i = Some yci
           /\ nth_error (yt l) i = Some yti
           /\ nth_error (dyc_dx l) i = Some di
           /\ nth_error (theta l) i = Some thi
           /\ thi = Np.arctan di
           /\ nth_error (y_upper l) i = Some (yci + yti * Np.cos thi)%f64
           /\ nth_error (y_lower l) i = Some (yci - yti * Np.cos thi)%f64.
Proof.
  intros Hn Hp1.
  destruct (naca4_body_returns m p t c n Hn Hp1)
    as [xs [_ [Hlen [_ Hbody]]]].
  exists (locals_of m p t c xs).
  split; [exact Hbody|]. split; [now apply naca4_of_body|].
  split; [exact Hlen|].
  intros i Hi. rewrite <- Hlen in Hi.
  destruct (nth_error_in_range xs i Hi) as [xi Hxi].
  exists (yc_at m p c xi), (yt_station t c xi), (dyc_at m p c xi),
    (Np.arctan (dyc_at m p c xi)).
  cbn [locals_of yc yt dyc_dx theta y_upper y_lower].
  repeat split; try (now apply nth_error_map_some).
  - now rewrite nth_error_map, Hxi.
  - now rewrite nth_error_map, Hxi.
  - now rewrite nth_error_map, Hxi.
Qed.

Lemma surfaces_from_camber_and_thickness_witness :
  exists l,
    naca4 0.02 0.4 0.12 1 5 = Ok (x l, y_upper l, y_lower l)
    /\ length (x l) = 5%nat.
Proof.
  destruct (surfaces_from_camber_and_thickness 0.02 0.4 0.12 1 5)
    as [l [_ [H [Hlen _]]]]; [lia | lra |].
  exists l. split; assumption.
Defined.

(** C5. In a call that returns, the thickness at every station is
    [yt_station], which for a nonzero chord is the finite number
    [(t/0.20) * c * (0.2969*sqrt(x/c) - 0.1260*(x/c) - 0.3516*(x/c)^2
    + 0.2843*(x/c)^3 - 0.1015*(x/c)^4)]; both surfaces are built from it;
    and it is the same for every other pair of camber parameters. *)
Theorem thickness_distribution (m p t c : R) (n : Z) :
  (0 <= n)%Z -> p <> 1 ->
  exists l,
    naca4_body m p t c n = Ok l
    /\ yt l = map (yt_station t c) (x l)
    /\ y_upper l = (yc l :+: yt l :*: np_cos (theta l))%np
    /\ y_lower l = (yc l :-: yt l :*: np_cos (theta l))%np
    /\ (c <> 0 ->
        forall i xi, nth_error (x l) i = Some xi ->
          exists r, xi = Fin r
                    /\ nth_error (yt l) i = Some (Fin (yt_formula t c r)))
    /\ (forall m' p', p' <> 1 ->
          exists l', naca4_body m' p' t c n = Ok l'
                     /\ x l' = x l /\ yt l' = yt l).
Proof.
  intros Hn Hp1.
  destruct (naca4_body_returns m p t c n Hn Hp1)
    as [xs [Hxs [_ [Hall Hbody]]]].
  exists (locals_of m p t c xs).
  destruct (locals_of_surfaces m p t c xs) as [_ [Hu Hl]].
  repeat split; try assumption.
  - intros Hc i xi Hxi. cbn [locals_of x yt] in *.
    rewrite Forall_forall in Hall.
    destruct (Hall xi (nth_error_In _ _ Hxi)) as [r [-> [_ Hr]]].
    exists r. split; [reflexivity|].
    rewrite nth_error_map, Hxi. cbn [option_map].
    rewrite yt_station_real; [reflexivity | exact Hc | apply Hr, Hc].
  - intros m' p' Hp'. exists (locals_of m' p' t c xs).
    repeat split. now apply naca4_body_locals.
Qed.

Lemma thickness_distribution_witness :
  exists l,
    naca4_body 0.02 0.4 0.12 1 5 = Ok l
    /\ yt l = map (yt_station 0.12 1) (x l).
Proof.
  destruct (thickness_distribution 0.02 0.4 0.12 1 5)
    as [l [H [Hyt _]]]; [lia | lra |].
  exists l. split; assumption.
Defined.

(** ** Camber line *)

Lemma yc_at_cambered (m p c : R) (xi : float64) :
  p <> 0 -> yc_at m p c xi = yc_station m p c xi.
Proof. intros Hp. unfold yc_at. now destruct (Req_dec_T p 0). Qed.

Lemma dyc_at_cambered (m p c : R) (xi : float64) :
  p <> 0 -> dyc_at m p c xi = dyc_station m p c xi.
Proof. intros Hp. unfold dyc_at. now destruct (Req_dec_T p 0). Qed.

Lemma yc_at_symmetric (m c : R) (xi : float64) : yc_at m 0 c xi = Fin 0.
Proof. unfold yc_at. destruct (Req_dec_T 0 0); [reflexivity | lra]. Qed.

Lemma dyc_at_symmetric (m c : R) (xi : float64) : dyc_at m 0 c xi = Fin 0.
Proof. unfold dyc_at. destruct (Req_dec_T 0 0); [reflexivity | lra]. Qed.

(** C1. In a call with [p <> 0] that returns, the camber line and its
    slope are the piecewise rule applied to each station on its own: for
    a nonzero chord, a station [x <= p*c] gets the fore formulas and a
    station [x > p*c] the aft formulas. *)
Theorem camber_piecewise_per_station (m p t c : R) (n : Z) :
  p <> 0 -> p <> 1 -> (0 <= n)%Z ->
  exists l,
    naca4_body m p t c n = Ok l
    /\ yc l = map (yc_station m p c) (x l)
    /\ dyc_dx l = map (dyc_station m p c) (x l)
    /\ (c <> 0 ->
        forall i xi, nth_error (x l) i = Some xi ->
          exists r yci di,
            xi = Fin r
            /\ nth_error (yc l) i = Some (Fin yci)
            /\ nth_error (dyc_dx l) i = Some (Fin di)
            /\ (r <= p * c ->
                yci = (m / p ^ 2) * (2 * p * (r / c) - (r / c) ^ 2)
                /\ di = (2 * m / p ^ 2) * (p - r / c))
            /\ (r > p * c ->
                yci = (m / (1 - p) ^ 2)
                      * ((1 - 2 * p) + 2 * p * (r / c) - (r / c) ^ 2)
                /\ di = (2 * m / (1 - p) ^ 2) * (p - r / c))).
Proof.
  intros Hp0 Hp1 Hn.
  destruct (naca4_body_returns m p t c n Hn Hp1)
    as [xs [_ [_ [Hall Hbody]]]].
  exists (locals_of m p t c xs).
  cbn [locals_of x yc dyc_dx].
  split; [exact Hbody|].
  split; [apply map_ext; intros; now apply yc_at_cambered|].
  split; [apply map_ext; intros; now apply dyc_at_cambered|].
  intros Hc i xi Hxi.
  rewrite Forall_forall in Hall.
  destruct (Hall xi (nth_error_In _ _ Hxi)) as [r [-> _]].
  exists r, (yc_formula m p c r), (dyc_formula m p c r).
  rewrite !nth_error_map, Hxi. cbn [option_map].
  rewrite yc_at_cambered, dyc_at_cambered by exact Hp0.
  rewrite yc_station_real, dyc_station_real by exact Hc.
  unfold yc_formula, dyc_formula, yc_fore, yc_aft, dyc_fore, dyc_aft.
  repeat split; destruct (Rle_dec r (p * c)); try reflexivity; lra.
Qed.

(** At [m = 0.02], [p = 0.4], [c = 1], [n = 5] the station [0.25] takes
    the fore formula and the station [0.5], in the same call, the aft
    one. *)
Lemma camber_piecewise_per_station_witness :
  exists l,
    naca4_body 0.02 0.4 0.12 1 5 = Ok l
    /\ nth_error (x l) 1 = Some (Fin 0.25)
    /\ nth_error (yc l) 1 = Some (Fin (yc_fore 0.02 0.4 1 0.25))
    /\ nth_error (x l) 2 = Some (Fin 0.5)
    /\ nth_error (yc l) 2 = Some (Fin (yc_aft 0.02 0.4 1 0.5)).
Proof.
  destruct (camber_piecewise_per_station 0.02 0.4 0.12 1 5)
    as [l [H [_ [_ Hreal]]]]; [lra | lra | lia |].
  pose proof np_linspace_unit_five as Hx.
  apply naca4_body_locals with (m := 0.02) (p := 0.4) (t := 0.12) in Hx;
    [|lra].
  rewrite H in Hx. injection Hx as Hl.
  assert (Hx1 : nth_error (x l) 1 = Some (Fin 0.25))
    by (rewrite Hl; reflexivity).
  assert (Hx2 : nth_error (x l) 2 = Some (Fin 0.5))
    by (rewrite Hl; reflexivity).
  assert (Hc : 1 <> 0) by lra.
  destruct (Hreal Hc 1%nat _ Hx1)
    as [r1 [y1 [d1 [E1 [Hy1 [_ [Hfore _]]]]]]].
  destruct (Hreal Hc 2%nat _ Hx2)
    as [r2 [y2 [d2 [E2 [Hy2 [_ [_ Haft]]]]]]].
  injection E1 as <-. injection E2 as <-.
  destruct Hfore as [-> _]; [lra|].
  destruct Haft as [-> _]; [lra|].
  exists l. repeat split; assumption.
Defined.

(** C6. In a call with [p = 0] the camber line and its slope are zero at
    every station.  They come from the special-cased branch: the general
    branch, run with [p = 0], divides by [p**2 = 0] and raises. *)
Theorem symmetric_camber_is_zero (m t c : R) (n : Z) :
  (0 <= n)%Z ->
  exists l,
    naca4_body m 0 t c n = Ok l
    /\ length (x l) = Z.to_nat n
    /\ camber m 0 c (x l) = Ok (yc l, dyc_dx l)
    /\ yc l = np_zeros_like (x l)
    /\ dyc_dx l = np_zeros_like (x l)
    /\ (forall i, (i < Z.to_nat n)%nat ->
          nth_error (yc l) i = Some (Fin 0)
          /\ nth_error (dyc_dx l) i = Some (Fin 0))
    /\ camber_general m 0 c (x l) = Raise ZeroDivisionError.
Proof.
  intros Hn.
  destruct (naca4_body_returns m 0 t c n Hn) as [xs [_ [Hlen [_ Hbody]]]];
    [lra|].
  exists (locals_of m 0 t c xs).
  cbn [locals_of x yc dyc_dx].
  assert (Hyc : map (yc_at m 0 c) xs = np_zeros_like xs).
  { apply map_ext. intros. apply yc_at_symmetric. }
  assert (Hd : map (dyc_at m 0 c) xs = np_zeros_like xs).
  { apply map_ext. intros. apply dyc_at_symmetric. }
  rewrite Hyc, Hd.
  split; [exact Hbody|]. split; [exact Hlen|].
  split; [apply camber_symmetric|].
  split; [reflexivity|]. split; [reflexivity|].
  split; [|apply camber_general_raises_0].
  intros i Hi. rewrite <- Hlen in Hi.
  destruct (nth_error_in_range xs i Hi) as [xi Hxi].
  unfold np_zeros_like. now rewrite nth_error_map, Hxi.
Qed.

Lemma symmetric_camber_is_zero_witness :
  exists l,
    naca4_body 0.02 0 0.12 1 5 = Ok l
    /\ nth_error (yc l) 2 = Some (Fin 0)
    /\ nth_error (dyc_dx l) 2 = Some (Fin 0).
Proof.
  destruct (symmetric_camber_is_zero 0.02 0.12 1 5)
    as [l [H [_ [_ [_ [_ [Hz _]]]]]]]; [lia|].
  exists l. split; [exact H|]. apply Hz. simpl. lia.
Defined.

(** ** Symmetry *)

Lemma add_zero_neg_sub_zero (o : float64) :
  (Fin 0 + o)%f64 = (- (Fin 0 - o))%f64.
Proof.
  destruct o as [r|s|]; unfold Np.sub; simpl.
  - f_equal. ring.
  - now rewrite negb_involutive.
  - reflexivity.
Qed.

Lemma upper_station_symmetric_real (m t c r : R) :
  c <> 0 -> 0 <= r / c ->
  upper_station m 0 t c (Fin r) = Fin (yt_formula t c r).
Proof.
  intros Hc Hr. unfold upper_station, offset.
  rewrite yc_at_symmetric, dyc_at_symmetric, yt_station_real by assumption.
  simpl. rewrite atan_0, cos_0. f_equal. ring.
Qed.

Lemma upper_station_nan (m p t : R) : upper_station m p t 0 (Fin 0) = NaN.
Proof.
  unfold upper_station, offset. rewrite yt_station_nan.
  now destruct (yc_at m p 0 (Fin 0)).
Qed.

Lemma lower_station_nan (m p t : R) : lower_station m p t 0 (Fin 0) = NaN.
Proof.
  unfold lower_station, offset. rewrite yt_station_nan.
  now destruct (yc_at m p 0 (Fin 0)).
Qed.

Lemma upper_lower_symmetric (m t c : R) (xi : float64) :
  upper_station m 0 t c xi = (- lower_station m 0 t c xi)%f64.
Proof.
  unfold upper_station, lower_station.
  rewrite yc_at_symmetric. apply add_zero_neg_sub_zero.
Qed.

(** In the idealised model, and for [t] and [c] up to [1e100] in absolute
    value, where line 27 cannot overflow: with a nonzero chord the two
    entries are opposite finite numbers, with a zero chord both are
    NaN. *)
Lemma symmetric_in_range (m t c : R) (n : Z) :
  (0 <= n <= max_samples)%Z -> Rabs t <= huge -> Rabs c <= huge ->
  exists xs yu yl,
    naca4 m 0 t c n = Ok (xs, yu, yl)
    /\ forall i, (i < Z.to_nat n)%nat ->
         exists a b,
           nth_error yu i = Some a
           /\ nth_error yl i = Some b
           /\ (c <> 0 -> exists r, a = Fin r /\ b = Fin (- r)
                                   /\ np_eq a (- b)%f64 = true)
           /\ (c = 0 -> a = NaN /\ b = NaN
                        /\ np_eq a (- b)%f64 = false).
Proof.
  intros [Hn _] _ _.
  destruct (naca4_body_returns m 0 t c n Hn)
    as [xs [_ [Hlen [Hall Hbody]]]]; [lra|].
  apply naca4_of_body in Hbody. cbn [locals_of x y_upper y_lower] in Hbody.
  exists xs, (map (upper_station m 0 t c) xs),
    (map (lower_station m 0 t c) xs).
  split; [exact Hbody|].
  intros i Hi. rewrite <- Hlen in Hi.
  destruct (nth_error_in_range xs i Hi) as [xi Hxi].
  exists (upper_station m 0 t c xi), (lower_station m 0 t c xi).
  rewrite !nth_error_map, Hxi.
  split; [reflexivity|]. split; [reflexivity|].
  pose proof (upper_lower_symmetric m t c xi) as Hsym.
  rewrite Forall_forall in Hall.
  destruct (Hall xi (nth_error_In _ _ Hxi)) as [r [-> [Hr0 Hr]]].
  split.
  - intros Hc. exists (yt_formula t c r).
    assert (Hup : upper_station m 0 t c (Fin r) = Fin (yt_formula t c r))
      by (apply upper_station_symmetric_real; [exact Hc | apply Hr, Hc]).
    split; [exact Hup|]. split.
    + rewrite Hup in Hsym.
      destruct (lower_station m 0 t c (Fin r)) as [v|s|];
        try discriminate.
      injection Hsym as Hv. f_equal. lra.
    + rewrite <- Hsym, Hup. now apply np_eq_refl.
  - intros Hc. subst c. rewrite Hr0 by reflexivity.
    rewrite upper_station_nan, lower_station_nan. repeat split.
Qed.

(** ** Symmetry on binary64 numbers *)

Section SymmetryOnBinary64.
Import Stdlib.Floats.Floats.

(** C7, the claim as stated fails: with a zero chord every ratio [x / c]
    is [0 / 0].  [naca4(0, 0, 0.12, 0, 3)] returns the stations
    [0, 0, 0] and, whatever the mathematical library, NaN at index 0 of
    both surfaces, where [y_upper[0] == -y_lower[0]] is false. *)
Lemma symmetric_airfoil_fails_at_zero_chord :
  exists xs, forall L,
    exists yu yl a b,
      B64.naca4 L 0 0 0.12 0 3 = B64.Ok (xs, yu, yl)
      /\ nth_error yu 0 = Some a
      /\ nth_error yl 0 = Some b
      /\ is_nan a = true /\ is_nan b = true
      /\ (a =? - b)%float = false.
Proof.
  exists [0; 0; 0]%float. intros [pw atn cs].
  eexists; eexists; eexists; eexists.
  split; [vm_compute; reflexivity|].
  cbn [nth_error].
  split; [reflexivity|]. split; [reflexivity|].
  rewrite b64_nan_add, b64_nan_sub, b64_mul_nan, b64_nan_mul.
  rewrite b64_add_nan, b64_sub_nan.
  repeat split.
Qed.

(** C7, amended.  On binary64 numbers, for every mathematical library,
    all floats [m], [t], [c] (a zero chord, infinities and NaN included)
    and every sample count from [0] to [max_samples]: a call with
    [p = 0] returns two surfaces of length [n], and at every index
    either [y_upper[i] == -y_lower[i]], or both entries are NaN. *)
Theorem symmetric_unless_nan (L : B64.mathlib) (m t c : float) (n : Z) :
  (0 <= n <= max_samples)%Z ->
  exists xs yu yl,
    B64.naca4 L m 0 t c n = B64.Ok (xs, yu, yl)
    /\ length yu = Z.to_nat n
    /\ length yl = Z.to_nat n
    /\ forall i, (i < Z.to_nat n)%nat ->
         exists a b,
           nth_error yu i = Some a
           /\ nth_error yl i = Some b
           /\ ((is_nan a = true /\ is_nan b = true)
               \/ (a =? - b)%float = true).
Proof.
  intros [Hlo Hhi].
  destruct (b64_linspace_returns 0 c n) as [xs [Hxs Hlen]];
    [unfold max_samples in Hhi; lia|].
  destruct (b64_thickness_returns L t c xs) as [yt [Hyt Hlyt]].
  unfold B64.naca4. rewrite Hxs. cbn [B64.bind].
  rewrite Hyt. cbn [B64.bind].
  rewrite b64_camber_symmetric by reflexivity.
  cbn [B64.bind fst snd].
  eexists; eexists; eexists. split; [reflexivity|].
  split; [repeat (rewrite b64_length_map2 || rewrite length_map); lia|].
  split; [repeat (rewrite b64_length_map2 || rewrite length_map); lia|].
  intros i Hi. rewrite <- Hlen in Hi.
  rewrite !b64_nth_error_map2, !nth_error_map.
  destruct (nth_error_in_range xs i Hi) as [xi ->].
  rewrite <- Hlyt in Hi.
  destruct (nth_error_in_range yt i Hi) as [yi ->].
  cbn [option_map].
  eexists; eexists. split; [reflexivity|]. split; [reflexivity|].
  apply b64_zero_plus_minus.
Qed.

Lemma symmetric_unless_nan_witness :
  exists xs yu yl,
    B64.naca4 B64.annex_f_table 0 0 0.12 1 5 = B64.Ok (xs, yu, yl)
    /\ exists a b,
         nth_error yu 0 = Some a
         /\ nth_error yl 0 = Some b
         /\ ((is_nan a = true /\ is_nan b = true)
             \/ (a =? - b)%float = true).
Proof.
  destruct (symmetric_unless_nan B64.annex_f_table 0 0.12 1 5)
    as [xs [yu [yl [H [_ [_ Hs]]]]]]; [unfold max_samples; lia|].
  exists xs, yu, yl. split; [exact H|]. apply Hs. simpl. lia.
Defined.

End SymmetryOnBinary64.

(** ** Continuity at the break *)



(** ** Exceptions *)

Lemma naca4_negative_count (m p t c : R) (n : Z) :
  (n < 0)%Z -> naca4 m p t c n = Raise ValueError.
Proof.
  intros Hn. unfold naca4, naca4_body.
  now rewrite np_linspace_negative by exact Hn.
Qed.

Lemma naca4_camber_at_trailing_edge (m t c : R) (n : Z) :
  (0 <= n)%Z -> naca4 m 1 t c n = Raise ZeroDivisionError.
Proof.
  intros Hn. unfold naca4, naca4_body.
  destruct (np_linspace_ok c n Hn) as [xs [-> _]].
  rewrite bind_Ok, thickness_map, bind_Ok.
  rewrite camber_cambered by lra.
  now rewrite camber_general_raises_1.
Qed.

(** C2, the claim as stated fails: with the camber position at the
    trailing edge, [p = 1], the scalar quotient [m / (1 - p)**2] raises
    [ZeroDivisionError] and nothing is returned. *)
Lemma naca4_raises_at_p_1 :
  naca4 0.02 1 0.12 1 5 = Raise ZeroDivisionError
  /\ ~ (exists r, naca4 0.02 1 0.12 1 5 = Ok r).
Proof.
  assert (H : naca4 0.02 1 0.12 1 5 = Raise ZeroDivisionError).
  { apply naca4_camber_at_trailing_edge. lia. }
  split; [exact H|]. intros [r Hr]. rewrite H in Hr. discriminate.
Qed.

(** A negative sample count is refused too, by [np.linspace]. *)
Example naca4_raises_at_negative_count :
  naca4 0.02 0.4 0.12 1 (-1) = Raise ValueError.
Proof. apply naca4_negative_count. lia. Qed.

(** In the idealised model: for a camber position that is [0] or of
    ordinary magnitude and is not [1], and a sample count from [0] to
    [max_samples], the call returns three arrays of length [n], whatever
    [m], [t] and [c]; with a zero chord the stations are all [0] and
    every surface entry is NaN. *)
Lemma naca4_returns_in_range (m p t c : R) (n : Z) :
  (0 <= n <= max_samples)%Z -> zero_or_ordinary p -> p <> 1 ->
  exists xs yu yl,
    naca4 m p t c n = Ok (xs, yu, yl)
    /\ length xs = Z.to_nat n
    /\ length yu = Z.to_nat n
    /\ length yl = Z.to_nat n
    /\ (c = 0 ->
        Forall (eq (Fin 0)) xs
        /\ Forall (eq NaN) yu
        /\ Forall (eq NaN) yl).
Proof.
  intros [Hn _] _ Hp1.
  destruct (naca4_body_returns m p t c n Hn Hp1)
    as [xs [_ [Hlen [Hall Hbody]]]].
  apply naca4_of_body in Hbody. cbn [locals_of x y_upper y_lower] in Hbody.
  exists xs, (map (upper_station m p t c) xs),
    (map (lower_station m p t c) xs).
  rewrite !length_map.
  split; [exact Hbody|]. do 3 (split; [exact Hlen|]).
  intros Hc. repeat split.
  - apply Forall_forall. intros xi Hin. rewrite Forall_forall in Hall.
    destruct (Hall xi Hin) as [r [-> [Hr _]]]. now rewrite Hr.
  - apply Forall_forall. intros yi Hin. rewrite Forall_forall in Hall.
    apply in_map_iff in Hin. destruct Hin as [xi [<- Hin]].
    destruct (Hall xi Hin) as [r [-> [Hr _]]].
    subst c. rewrite Hr by reflexivity. symmetry. apply upper_station_nan.
  - apply Forall_forall. intros yi Hin. rewrite Forall_forall in Hall.
    apply in_map_iff in Hin. destruct Hin as [xi [<- Hin]].
    destruct (Hall xi Hin) as [r [-> [Hr _]]].
    subst c. rewrite Hr by reflexivity. symmetry. apply lower_station_nan.
Qed.

(** ** Exceptions on binary64 numbers *)

Section ExceptionsOnBinary64.
Import Stdlib.Floats.Floats.

(** C2, amended.  [naca4] validates nothing itself, and it raises where
    [np.linspace] or its scalar arithmetic raises.  On binary64 numbers,
    for every mathematical library and all floats [m], [t], [c]:
    a negative sample count is [ValueError]; with a sample count from
    [0] to [max_samples], [p = 1] is [ZeroDivisionError], and the call
    returns three arrays of length [n], empty for [n = 0], exactly when
    [p == 0] or the two squares [p**2] and [(1 - p)**2] evaluate, and to
    nonzero numbers.  The array arithmetic raises nothing: a zero chord
    and a camber position outside [[0, 1)] return arrays. *)
Theorem naca4_raises_or_returns (L : B64.mathlib) (m p t c : float)
    (n : Z) :
  ((n < 0)%Z -> B64.naca4 L m p t c n = B64.Raise B64.ValueError)
  /\ ((0 <= n <= max_samples)%Z -> p = 1%float ->
      B64.naca4 L m p t c n = B64.Raise B64.ZeroDivisionError)
  /\ ((0 <= n <= max_samples)%Z ->
      (p =? 0)%float = true \/ B64.quotients_defined L p ->
      exists xs yu yl,
        B64.naca4 L m p t c n = B64.Ok (xs, yu, yl)
        /\ length xs = Z.to_nat n
        /\ length yu = Z.to_nat n
        /\ length yl = Z.to_nat n)
  /\ ((0 <= n <= max_samples)%Z ->
      forall r, B64.naca4 L m p t c n = B64.Ok r ->
        (p =? 0)%float = true \/ B64.quotients_defined L p).
Proof.
  split; [|split; [|split]].
  - intros Hn. unfold B64.naca4.
    now rewrite b64_linspace_negative by exact Hn.
  - intros [Hlo Hhi] ->. unfold B64.naca4.
    destruct (b64_linspace_returns 0 c n) as [xs [-> _]];
      [unfold max_samples in Hhi; lia|].
    reflexivity.
  - intros [Hlo Hhi] Hp. apply b64_naca4_returns; [|exact Hp].
    unfold max_samples in Hhi. lia.
  - intros [Hlo Hhi] r. unfold B64.naca4.
    destruct (b64_linspace_returns 0 c n) as [xs [-> _]];
      [unfold max_samples in Hhi; lia|].
    cbn [B64.bind].
    destruct (b64_thickness_returns L t c xs) as [yt [-> _]].
    cbn [B64.bind]. unfold B64.camber.
    destruct (p =? 0)%float; [now left|]. right.
    destruct (B64.camber_general L m p c xs) as [cam|e] eqn:Hcam;
      [|discriminate].
    exact (b64_camber_general_inv L m p c xs cam Hcam).
Qed.

Lemma naca4_raises_or_returns_witness :
  B64.naca4 B64.annex_f_table 0.02 0.4 0.12 1 (-1)
  = B64.Raise B64.ValueError
  /\ B64.naca4 B64.annex_f_table 0.02 1 0.12 1 5
     = B64.Raise B64.ZeroDivisionError
  /\ exists xs yu yl,
       B64.naca4 B64.annex_f_table 0.02 0 0.12 0 1 = B64.Ok (xs, yu, yl)
       /\ length xs = 1%nat.
Proof.
  split;
    [apply (naca4_raises_or_returns B64.annex_f_table 0.02 0.4 0.12 1 (-1));
     lia|].
  split;
    [apply (naca4_raises_or_returns B64.annex_f_table 0.02 1 0.12 1 5);
       [unfold max_samples; lia | reflexivity]|].
  destruct (naca4_raises_or_returns B64.annex_f_table 0.02 0 0.12 0 1)
    as [_ [_ [H _]]].
  destruct H as [xs [yu [yl [H [Hx _]]]]];
    [unfold max_samples; lia | left; reflexivity |].
  exists xs, yu, yl. split; assumption.
Defined.

(** Two camber positions that are neither [0] nor [1] and raise all the
    same: the square of [1e-200] underflows to zero, and the quotient
    [m / p**2] is a division by zero; the square of [1e200] overflows. *)
Lemma b64_raises_on_underflow (L : B64.mathlib) (m t c : float) :
  B64.pow L 1e-200 2 = 0%float ->
  B64.naca4 L m 1e-200 t c 5 = B64.Raise B64.ZeroDivisionError.
Proof.
  intros Hpow. unfold B64.naca4.
  destruct (b64_linspace_returns 0 c 5) as [xs [-> _]]; [lia|].
  cbn [B64.bind].
  destruct (b64_thickness_returns L t c xs) as [yt [-> _]].
  cbn [B64.bind]. unfold B64.camber, B64.camber_general.
  change (B64.py_square L 1e-200)
    with (let r := B64.pow L 1e-200 2 in
          if is_infinity r then B64.Raise B64.OverflowError
          else B64.Ok r).
  cbv zeta. rewrite Hpow. reflexivity.
Qed.

Lemma b64_raises_on_overflow (L : B64.mathlib) (m t c : float) :
  B64.pow L 1e200 2 = infinity ->
  B64.naca4 L m 1e200 t c 5 = B64.Raise B64.OverflowError.
Proof.
  intros Hpow. unfold B64.naca4.
  destruct (b64_linspace_returns 0 c 5) as [xs [-> _]]; [lia|].
  cbn [B64.bind].
  destruct (b64_thickness_returns L t c xs) as [yt [-> _]].
  cbn [B64.bind]. unfold B64.camber, B64.camber_general.
  change (B64.py_square L 1e200)
    with (let r := B64.pow L 1e200 2 in
          if is_infinity r then B64.Raise B64.OverflowError
          else B64.Ok r).
  cbv zeta. rewrite Hpow. reflexivity.
Qed.

End ExceptionsOnBinary64.

(** ** The symmetric airfoil, in numbers *)

Lemma neg_involutive (a : float64) : (- - a)%f64 = a.
Proof.
  destruct a as [r|s|]; simpl; [|now rewrite negb_involutive|reflexivity].
  now rewrite Ropp_involutive.
Qed.

Lemma yt_formula_quarter_chord :
  yt_formula 0.12 1 0.25 = 0.059412421875.
Proof.
  unfold yt_formula.
  replace (0.25 / 1) with (0.5 * 0.5) by lra.
  rewrite sqrt_square by lra. lra.
Qed.

Lemma naca0012_five (xs yu yl : ndarray) :
  naca4 0 0 0.12 1 5 = Ok (xs, yu, yl) ->
  xs = [Fin 0; Fin 0.25; Fin 0.5; Fin 0.75; Fin 1]
  /\ yu = map (upper_station 0 0 0.12 1) xs
  /\ yl = map (lower_station 0 0 0.12 1) xs.
Proof.
  intros H.
  pose proof np_linspace_unit_five as Hx.
  apply naca4_body_locals with (m := 0) (p := 0) (t := 0.12) in Hx; [|lra].
  apply naca4_of_body in Hx. rewrite Hx in H.
  cbn [locals_of x y_upper y_lower] in H.
  injection H as <- <- <-. repeat split.
Qed.

(** C3, the claim as stated fails: the upper surface at [x = 0.25] is
    not within [0.0005] of [0.0586]. *)
Lemma naca0012_quarter_chord_is_not_0586 :
  ~ (exists xs yu yl v,
       naca4 0 0 0.12 1 5 = Ok (xs, yu, yl)
       /\ nth_error xs 1 = Some (Fin 0.25)
       /\ nth_error yu 1 = Some (Fin v)
       /\ Rabs (v - 0.0586) <= 0.0005).
Proof.
  intros [xs [yu [yl [v [H [_ [Hv Hclose]]]]]]].
  apply naca0012_five in H. destruct H as [-> [-> _]].
  cbn [map nth_error] in Hv.
  rewrite upper_station_symmetric_real in Hv by lra.
  rewrite yt_formula_quarter_chord in Hv.
  injection Hv as <-.
  unfold Rabs in Hclose.
  destruct (Rcase_abs (0.059412421875 - 0.0586)); lra.
Qed.

(** C3, amended.  [naca4(0, 0, 0.12, 1, 5)] returns the stations
    [0, 0.25, 0.5, 0.75, 1], a lower surface that is the negation of the
    upper one at every station, and an upper surface that is
    [0.059412421875] at [x = 0.25], that is [0.0594] to four decimals. *)
Theorem naca0012_five_stations :
  exists yu yl,
    naca4 0 0 0.12 1 5
    = Ok ([Fin 0; Fin 0.25; Fin 0.5; Fin 0.75; Fin 1], yu, yl)
    /\ yl = map Np.neg yu
    /\ nth_error yu 1 = Some (Fin 0.059412421875)
    /\ Rabs (0.059412421875 - 0.0594) < 0.00005.
Proof.
  destruct (naca4_body_returns 0 0 0.12 1 5) as [xs [_ [_ [_ Hbody]]]];
    [lia | lra |].
  apply naca4_of_body in Hbody. cbn [locals_of x y_upper y_lower] in Hbody.
  destruct (naca0012_five _ _ _ Hbody) as [Hxs _].
  rewrite Hxs in Hbody.
  eexists. eexists. split; [exact Hbody|].
  split; [|split].
  - rewrite map_map. apply map_ext. intros xi.
    rewrite upper_lower_symmetric. now rewrite neg_involutive.
  - cbn [map nth_error].
    rewrite upper_station_symmetric_real by lra.
    now rewrite yt_formula_quarter_chord.
  - unfold Rabs. destruct (Rcase_abs (0.059412421875 - 0.0594)); lra.
Qed.

(** ** The thickness envelope is nonnegative *)

(** In the variable [s = sqrt(x/c)] the envelope is
    [s * (0.0021 + (1 - s) * h)] with [h >= 0.26] on [[0, 1]]. *)
Lemma envelope_in_sqrt (s : R) :
  0 <= s <= 1 ->
  0 <= 0.2969 * s - 0.1260 * (s * s) - 0.3516 * (s * s) ^ 2
       + 0.2843 * (s * s) ^ 3 - 0.1015 * (s * s) ^ 4.
Proof.
  intros [Hs0 Hs1].
  remember (s * s) as a eqn:Ea.
  assert (Ha : 0 <= a <= 1) by nra.
  remember (0.2948 + 0.1688 * (s + a) - 0.1828 * (a * (s + a))
            + 0.1015 * (a * a * (s + a))) as h eqn:Eh.
  assert (H1 : 0 <= a * a * (s + a)) by (apply Rmult_le_pos; nra).
  assert (H2 : 0 <= (1 - a) * (s + a)) by (apply Rmult_le_pos; lra).
  assert (Hh : 0.26 <= h) by lra.
  assert (H3 : 0 <= (1 - s) * h) by (apply Rmult_le_pos; lra).
  replace (0.2969 * s - 0.1260 * a - 0.3516 * a ^ 2
           + 0.2843 * a ^ 3 - 0.1015 * a ^ 4)
    with (s * (0.0021 + (1 - s) * h)) by (subst h a; lra).
  apply Rmult_le_pos; lra.
Qed.

Lemma envelope_nonneg (u : R) :
  0 <= u <= 1 ->
  0 <= 0.2969 * sqrt u - 0.1260 * u - 0.3516 * u ^ 2
       + 0.2843 * u ^ 3 - 0.1015 * u ^ 4.
Proof.
  intros [Hu0 Hu1].
  assert (Hs0 : 0 <= sqrt u) by apply sqrt_pos.
  assert (Hs1 : sqrt u <= 1).
  { rewrite <- sqrt_1. now apply sqrt_le_1_alt. }
  assert (Hsq : sqrt u * sqrt u = u) by now apply sqrt_sqrt.
  generalize (envelope_in_sqrt (sqrt u) (conj Hs0 Hs1)).
  now rewrite Hsq.
Qed.

Lemma yt_formula_nonneg (t c r : R) :
  0 <= t -> 0 < c -> 0 <= r / c <= 1 -> 0 <= yt_formula t c r.
Proof.
  intros Ht Hc Hr. unfold yt_formula.
  apply Rmult_le_pos; [|now apply envelope_nonneg].
  apply Rmult_le_pos; lra.
Qed.

Lemma cos_atan_pos (d : R) : 0 < cos (atan d).
Proof.
  destruct (atan_bound d) as [Hlo Hhi]. apply cos_gt_0; lra.
Qed.

Lemma camber_at_real (m p c r : R) :
  c <> 0 ->
  exists yci di,
    yc_at m p c (Fin r) = Fin yci /\ dyc_at m p c (Fin r) = Fin di.
Proof.
  intros Hc. unfold yc_at, dyc_at.
  destruct (Req_dec_T p 0); [now exists 0, 0|].
  rewrite yc_station_real, dyc_station_real by exact Hc.
  now eexists; eexists.
Qed.

(** ** Overflow at the leading edge

    With [t = 1e308] the factor [t / 0.20] of line 27 is already [inf].
    At the first station the envelope is [0], so the thickness there is
    [inf * 0], which is NaN, and so are both surfaces. *)

Section Overflow.
Import Stdlib.Floats.Floats.

Lemma annex_f_table_conforms : B64.annex_f B64.annex_f_table.
Proof. repeat split. Qed.

Lemma overflow_at_leading_edge (L : B64.mathlib) :
  B64.annex_f L ->
  exists xs yu yl,
    B64.naca4 L 0 0 1e308 10 3 = B64.Ok (xs, yu, yl)
    /\ nth_error xs 0 = Some 0%float
    /\ nth_error yu 0 = Some nan
    /\ nth_error yl 0 = Some nan.
Proof.
  destruct L as [pw atn cs]. unfold B64.annex_f.
  cbn [B64.pow B64.arctan B64.cos].
  intros [H3 [H4 [Ha Hc]]].
  eexists; eexists; eexists.
  split; [vm_compute; reflexivity|].
  cbn [nth_error]. rewrite H3, H4, Ha, Hc.
  repeat split.
Qed.


End Overflow.



(** * Further properties of [naca4]

    In the idealised model, each for parameters in the range where that
    model stands for the binary64 computation up to rounding. *)

(** ** More on the stations *)

Lemma np_linspace_first (c : R) (n : Z) (xs : ndarray) :
  (1 <= n)%Z -> np_linspace 0 c n = Ok xs -> nth_error xs 0 = Some (Fin 0).
Proof.
  intros Hn Hxs.
  destruct (Z.eq_dec n 1) as [->|Hn1].
  - rewrite np_linspace_one in Hxs. now injection Hxs as <-.
  - rewrite np_linspace_stations in Hxs by lia. injection Hxs as <-.
    rewrite nth_error_map, nth_error_seq.
    destruct (Nat.ltb_spec 0 (Z.to_nat n)); [|lia].
    cbn [option_map]. do 2 f_equal. unfold station. simpl INR.
    unfold Rdiv. ring.
Qed.

Lemma yt_formula_leading_edge (t c : R) : yt_formula t c 0 = 0.
Proof.
  unfold yt_formula. replace (0 / c) with 0 by (unfold Rdiv; ring).
  rewrite sqrt_0. ring.
Qed.

Lemma yc_formula_leading_edge (m p c : R) :
  0 <= p * c -> yc_formula m p c 0 = 0.
Proof.
  intros Hpc. unfold yc_formula, yc_fore.
  destruct (Rle_dec 0 (p * c)) as [_|?]; [|contradiction].
  unfold Rdiv. ring.
Qed.

Lemma surfaces_leading_edge (m p t c : R) :
  c <> 0 -> 0 <= p * c ->
  upper_station m p t c (Fin 0) = Fin 0
  /\ lower_station m p t c (Fin 0) = Fin 0.
Proof.
  intros Hc Hpc.
  assert (H0 : 0 <= 0 / c) by (unfold Rdiv; rewrite Rmult_0_l; lra).
  destruct (camber_at_real m p c 0 Hc) as [yci [di [Hyc Hd]]].
  assert (Hy0 : yci = 0).
  { unfold yc_at in Hyc. destruct (Req_dec_T p 0).
    - now injection Hyc as <-.
    - rewrite yc_station_real in Hyc by exact Hc.
      injection Hyc as <-. now apply yc_formula_leading_edge. }
  unfold upper_station, lower_station, offset.
  rewrite Hyc, Hd, yt_station_real, yt_formula_leading_edge by assumption.
  subst yci. unfold Np.sub. simpl. split; f_equal; ring.
Qed.

(** X1. The leading edge is closed.  Take at least one sample and at
    most [max_samples], a nonzero chord, [m], [t] and [c] up to [1e100]
    in absolute value, and a camber position that is [0] or of ordinary
    magnitude, is not [1] and has [p * c >= 0].  Then the call returns,
    the first station is [0], and both surfaces are [0] there. *)
Theorem leading_edge_closes (m p t c : R) (n : Z) :
  (1 <= n <= max_samples)%Z ->
  Rabs m <= huge -> Rabs t <= huge -> c <> 0 -> Rabs c <= huge ->
  zero_or_ordinary p -> 0 <= p * c -> p <> 1 ->
  exists xs yu yl,
    naca4 m p t c n = Ok (xs, yu, yl)
    /\ nth_error xs 0 = Some (Fin 0)
    /\ nth_error yu 0 = Some (Fin 0)
    /\ nth_error yl 0 = Some (Fin 0).
Proof.
  intros [Hn _] _ _ Hc _ _ Hpc Hp1.
  destruct (naca4_body_returns m p t c n) as [xs [Hxs [_ [_ Hbody]]]];
    [lia | exact Hp1 |].
  apply naca4_of_body in Hbody. cbn [locals_of x y_upper y_lower] in Hbody.
  pose proof (np_linspace_first c n xs Hn Hxs) as H0.
  destruct (surfaces_leading_edge m p t c Hc Hpc) as [Hu Hl].
  eexists; eexists; eexists. split; [exact Hbody|].
  split; [exact H0|].
  rewrite !nth_error_map, H0. cbn [option_map]. now rewrite Hu, Hl.
Qed.

Lemma leading_edge_closes_witness :
  exists xs yu yl,
    naca4 0.02 0.4 0.12 1 5 = Ok (xs, yu, yl)
    /\ nth_error xs 0 = Some (Fin 0)
    /\ nth_error yu 0 = Some (Fin 0)
    /\ nth_error yl 0 = Some (Fin 0).
Proof.
  apply leading_edge_closes;
    [unfold max_samples; lia
    | apply Rabs_between; unfold huge; lra
    | apply Rabs_between; unfold huge; lra
    | lra
    | apply Rabs_between; unfold huge; lra
    | right; apply ordinary_between; lra
    | lra
    | lra].
Defined.

(** ** Zero camber *)

Lemma yc_formula_zero_camber (p c r : R) : yc_formula 0 p c r = 0.
Proof.
  unfold yc_formula, yc_fore, yc_aft.
  destruct (Rle_dec r (p * c)); unfold Rdiv; ring.
Qed.

Lemma dyc_formula_zero_camber (p c r : R) : dyc_formula 0 p c r = 0.
Proof.
  unfold dyc_formula, dyc_fore, dyc_aft.
  destruct (Rle_dec r (p * c)); unfold Rdiv; ring.
Qed.

Lemma surfaces_zero_camber (m p t c : R) (xi : float64) :
  p = 0 \/ m = 0 ->
  on_chord c xi ->
  upper_station m p t c xi = upper_station 0 0 t c xi
  /\ lower_station m p t c xi = lower_station 0 0 t c xi.
Proof.
  intros Hz [r [-> [Hr0 _]]].
  destruct (Req_dec_T p 0) as [->|Hp0].
  - unfold upper_station, lower_station.
    now rewrite !yc_at_symmetric, !dyc_at_symmetric.
  - destruct Hz as [? | ->]; [contradiction|].
    destruct (Req_dec_T c 0) as [->|Hc].
    + rewrite Hr0 by reflexivity.
      now rewrite !upper_station_nan, !lower_station_nan.
    + unfold upper_station, lower_station.
      rewrite yc_at_cambered, dyc_at_cambered by exact Hp0.
      rewrite yc_station_real, dyc_station_real by exact Hc.
      rewrite yc_formula_zero_camber, dyc_formula_zero_camber.
      now rewrite !yc_at_symmetric, !dyc_at_symmetric.
Qed.

(** X8. Zero camber is the symmetric airfoil.  With [p = 0], whatever
    [m], and with [m = 0] and a camber position of ordinary magnitude
    other than [1], a call with a sample count up to [max_samples] gives
    what [naca4(0, 0, t, c, n)] gives: the same exception for a negative
    count, and otherwise the same stations and the same surfaces, entry
    by entry, NaN where that one has NaN. *)
Theorem zero_camber_is_the_symmetric_airfoil (m p t c : R) (n : Z) :
  (n <= max_samples)%Z ->
  p = 0 \/ (m = 0 /\ ordinary p /\ p <> 1) ->
  naca4 m p t c n = naca4 0 0 t c n.
Proof.
  intros _ Hz.
  destruct (Z.lt_ge_cases n 0) as [Hn|Hn].
  - now rewrite !naca4_negative_count by exact Hn.
  - assert (Hp1 : p <> 1)
      by (destruct Hz as [-> | [_ [_ ?]]]; [lra | assumption]).
    assert (Hz' : p = 0 \/ m = 0) by tauto.
    destruct (np_linspace_ok c n Hn) as [xs [Hxs [_ Hall]]].
    pose proof (naca4_body_locals m p t c n xs Hp1 Hxs) as H1.
    assert (H01 : 0 <> 1) by lra.
    pose proof (naca4_body_locals 0 0 t c n xs H01 Hxs) as H2.
    apply naca4_of_body in H1. apply naca4_of_body in H2.
    rewrite H1, H2. cbn [locals_of x y_upper y_lower].
    rewrite Forall_forall in Hall.
    do 2 f_equal; [f_equal|]; apply map_ext_in; intros xi Hin;
      now apply surfaces_zero_camber; [|apply Hall].
Qed.

Lemma zero_camber_is_the_symmetric_airfoil_witness :
  naca4 0.02 0 0.12 1 5 = naca4 0 0 0.12 1 5
  /\ naca4 0 0.4 0.12 1 5 = naca4 0 0 0.12 1 5.
Proof.
  split.
  - apply zero_camber_is_the_symmetric_airfoil;
      [unfold max_samples; lia | left; reflexivity].
  - apply zero_camber_is_the_symmetric_airfoil;
      [unfold max_samples; lia|].
    right. split; [lra|]. split; [apply ordinary_between; lra | lra].
Defined.

(** ** Order of the stations *)

Lemma station_increasing (c : R) (n : Z) (i j : nat) :
  (2 <= n)%Z -> 0 < c -> (i < j)%nat -> station c n i < station c n j.
Proof.
  intros Hn Hc Hij. unfold station.
  assert (Hk : 0 < IZR n - 1).
  { rewrite <- minus_IZR. apply IZR_lt. lia. }
  apply Rmult_lt_compat_r; [exact Hc|].
  apply Rmult_lt_compat_r; [now apply Rinv_0_lt_compat|].
  now apply lt_INR.
Qed.

(** X9. The stations increase strictly.  For a chord between [1e-100]
    and [1e100], a sample count from [2] to [max_samples] and a camber
    position that is [0] or of ordinary magnitude and is not [1], the
    call returns stations with [x[i] < x[j]] whenever [i < j].  (A chord
    so small that the step [c / (n - 1)] underflows is outside this
    range: its stations collapse onto [0].) *)
Theorem stations_strictly_increasing (m p t c : R) (n : Z) :
  tiny <= c <= huge -> (2 <= n <= max_samples)%Z ->
  zero_or_ordinary p -> p <> 1 ->
  exists xs yu yl,
    naca4 m p t c n = Ok (xs, yu, yl)
    /\ length xs = Z.to_nat n
    /\ forall i j, (i < j < Z.to_nat n)%nat ->
         exists r r', nth_error xs i = Some (Fin r)
                      /\ nth_error xs j = Some (Fin r')
                      /\ r < r'.
Proof.
  intros [Hc _] [Hn _] _ Hp1.
  assert (Hc0 : 0 < c) by (unfold tiny in Hc; lra).
  eexists; eexists; eexists.
  split; [now apply naca4_returns_stations|].
  split; [unfold stations; now rewrite length_map, length_seq|].
  intros i j [Hij Hj].
  exists (station c n i), (station c n j).
  rewrite !nth_error_stations by lia.
  repeat split. now apply station_increasing.
Qed.

Lemma stations_strictly_increasing_witness :
  exists xs yu yl,
    naca4 0.02 0.4 0.12 1 5 = Ok (xs, yu, yl)
    /\ exists r r', nth_error xs 1 = Some (Fin r)
                    /\ nth_error xs 3 = Some (Fin r')
                    /\ r < r'.
Proof.
  destruct (stations_strictly_increasing 0.02 0.4 0.12 1 5)
    as [xs [yu [yl [H [_ Hs]]]]];
    [unfold tiny, huge; lra | unfold max_samples; lia
    | right; apply ordinary_between; lra | lra |].
  exists xs, yu, yl. split; [exact H|]. apply Hs. simpl. lia.
Defined.

(** ** The thickness is at most [t]

    With [a = s * s] and [2 * 0.55 * s <= a + 0.55^2] the envelope is at
    most a quartic in [a], which lies under its tangent at [a = 0.296]. *)

Lemma envelope_in_sqrt_upper (s : R) :
  0 <= s ->
  0.2969 * s - 0.1260 * (s * s) - 0.3516 * (s * s) ^ 2
  + 0.2843 * (s * s) ^ 3 - 0.1015 * (s * s) ^ 4 <= 0.1001.
Proof.
  intros Hs.
  remember (s * s) as a eqn:Ea.
  assert (Ha : 0 <= a) by nra.
  assert (Hk : 0 <= (s - 0.55) * (s - 0.55)) by apply Rle_0_sqr.
  assert (Hs' : 1.1 * s <= a + 0.3025) by lra.
  remember (0.3516 - 0.2843 * (a + 0.592)
            + 0.1015 * (a * a + 0.592 * a + 0.262848)) as g eqn:Eg.
  assert (Hg : 0 <= g).
  { pose proof (Rle_0_sqr (a - 1.1)) as Hq1.
    pose proof (Rle_0_sqr (a - 1.2)) as Hq2.
    unfold Rsqr in Hq1, Hq2. lra. }
  assert (Hsq : 0 <= (a - 0.296) * (a - 0.296)) by apply Rle_0_sqr.
  assert (Hprod : 0 <= (a - 0.296) * (a - 0.296) * g)
    by now apply Rmult_le_pos.
  subst g. lra.
Qed.

Lemma envelope_upper (u : R) :
  0 <= u ->
  0.2969 * sqrt u - 0.1260 * u - 0.3516 * u ^ 2
  + 0.2843 * u ^ 3 - 0.1015 * u ^ 4 <= 0.1001.
Proof.
  intros Hu.
  assert (Hs0 : 0 <= sqrt u) by apply sqrt_pos.
  assert (Hsq : sqrt u * sqrt u = u) by now apply sqrt_sqrt.
  generalize (envelope_in_sqrt_upper (sqrt u) Hs0).
  now rewrite Hsq.
Qed.

Lemma yt_formula_bounds (t c r : R) :
  0 <= t -> 0 < c -> 0 <= r / c <= 1 ->
  0 <= 2 * yt_formula t c r <= 1.001 * t * c.
Proof.
  intros Ht Hc Hr.
  pose proof (envelope_nonneg (r / c) Hr) as Hlo.
  pose proof (envelope_upper (r / c) (proj1 Hr)) as Hhi.
  assert (Hk : 0 <= t / 0.20 * c) by (apply Rmult_le_pos; lra).
  unfold yt_formula.
  remember (0.2969 * sqrt (r / c) - 0.1260 * (r / c) - 0.3516 * (r / c) ^ 2
            + 0.2843 * (r / c) ^ 3 - 0.1015 * (r / c) ^ 4) as e eqn:Ee.
  split; nra.
Qed.

(** X10. The thickness is at most [t], to one part in a thousand.  For
    a thickness that is [0] or lies between [1e-100] and [1e100], a chord
    between [1e-100] and [1e100], a camber position that is [0] or of
    ordinary magnitude and is not [1], and a sample count from [0] to
    [max_samples], the call returns, and twice the thickness distribution
    of line 27 lies in [[0, 1.001 * t * c]] at every station. *)
Theorem thickness_is_at_most_t (m p t c : R) (n : Z) :
  t = 0 \/ tiny <= t <= huge -> tiny <= c <= huge ->
  zero_or_ordinary p -> p <> 1 -> (0 <= n <= max_samples)%Z ->
  exists l,
    naca4_body m p t c n = Ok l
    /\ naca4 m p t c n = Ok (x l, y_upper l, y_lower l)
    /\ forall i, (i < Z.to_nat n)%nat ->
         exists r h,
           nth_error (x l) i = Some (Fin r)
           /\ nth_error (yt l) i = Some (Fin h)
           /\ 0 <= 2 * h <= 1.001 * t * c.
Proof.
  intros Ht [Hc _] _ Hp1 [Hn _].
  assert (Ht0 : 0 <= t)
    by (destruct Ht as [-> | [Ht _]]; [|unfold tiny in Ht]; lra).
  assert (Hc0 : 0 < c) by (unfold tiny in Hc; lra).
  destruct (naca4_body_returns m p t c n Hn Hp1)
    as [xs [_ [Hlen [Hall Hbody]]]].
  exists (locals_of m p t c xs). split; [exact Hbody|].
  split; [now apply naca4_of_body|].
  cbn [locals_of x yt].
  intros i Hi. rewrite <- Hlen in Hi.
  destruct (nth_error_in_range xs i Hi) as [xi Hxi].
  rewrite Forall_forall in Hall.
  destruct (Hall xi (nth_error_In _ _ Hxi)) as [r [-> [_ Hr]]].
  assert (Hrc : 0 <= r / c <= 1) by (apply Hr; lra).
  rewrite !nth_error_map, Hxi. cbn [option_map].
  rewrite yt_station_real by lra.
  eexists; eexists.
  do 2 (split; [reflexivity|]).
  now apply yt_formula_bounds.
Qed.

Lemma thickness_is_at_most_t_witness :
  exists l,
    naca4_body 0.02 0.4 0.12 1 5 = Ok l
    /\ exists h, nth_error (yt l) 2 = Some (Fin h)
                 /\ 0 <= 2 * h <= 1.001 * 0.12 * 1.
Proof.
  destruct (thickness_is_at_most_t 0.02 0.4 0.12 1 5)
    as [l [H [_ Hs]]];
    [right; unfold tiny, huge; lra | unfold tiny, huge; lra
    | right; apply ordinary_between; lra | lra
    | unfold max_samples; lia |].
  exists l. split; [exact H|].
  destruct (Hs 2%nat) as [r [h [_ [Hh Hb]]]]; [simpl; lia|].
  now exists h.
Defined.

(** * [plot_naca4] *)

Import Stdlib.Strings.String.

(** X11. Lines 48-53 of [plot_naca4].  With [p = 1] line 48 raises
    [ZeroDivisionError], so nothing is drawn.  With a camber position
    that is [0] or of ordinary magnitude and is not [1], line 48 returns
    and lines 51-53 hand [plt.plot] exactly three curves over one and the
    same array of 1000 stations running from [0] to [c]: the upper
    surface, the lower surface and a chord line of 1000 zeros.  (What
    line 56 does with the title, and what it raises, is [plot_title].) *)
Theorem plot_naca4_draws_three_curves (m p t c : R) :
  (p = 1 -> Plot.plot_naca4_curves m p t c = Raise ZeroDivisionError)
  /\ (zero_or_ordinary p -> p <> 1 ->
      exists xs yu yl,
        Plot.plot_naca4_curves m p t c
        = Ok [Plot.Curve xs yu "b" "Upper Surface";
              Plot.Curve xs yl "r" "Lower Surface";
              Plot.Curve xs (np_zeros_like xs) "k--" "Chord Line"]
        /\ List.length xs = 1000%nat
        /\ List.length yu = 1000%nat
        /\ List.length yl = 1000%nat
        /\ List.length (np_zeros_like xs) = 1000%nat
        /\ nth_error xs 0 = Some (Fin 0)
        /\ nth_error xs 999 = Some (Fin c)
        /\ Forall (eq (Fin 0)) (np_zeros_like xs)).
Proof.
  split.
  - intros ->. unfold Plot.plot_naca4_curves.
    now rewrite naca4_camber_at_trailing_edge by lia.
  - intros _ Hp1.
    assert (Hn : (2 <= 1000)%Z) by lia.
    exists (stations c 1000),
      (map (upper_station m p t c) (stations c 1000)),
      (map (lower_station m p t c) (stations c 1000)).
    assert (Hlen : List.length (stations c 1000) = 1000%nat).
    { unfold stations. now rewrite length_map, length_seq. }
    split.
    { unfold Plot.plot_naca4_curves.
      now rewrite (naca4_returns_stations m p t c 1000 Hn Hp1). }
    unfold np_zeros_like. rewrite !length_map.
    do 4 (split; [exact Hlen|]).
    split; [|split].
    + rewrite nth_error_stations by (simpl; lia).
      do 2 f_equal. unfold station. simpl INR. unfold Rdiv. ring.
    + replace 999%nat with (Z.to_nat 1000 - 1)%nat by reflexivity.
      rewrite nth_error_stations by (simpl; lia).
      now rewrite station_last.
    + apply Forall_forall. intros z Hin.
      apply in_map_iff in Hin. now destruct Hin as [xi [<- _]].
Qed.

Lemma plot_naca4_draws_three_curves_witness :
  Plot.plot_naca4_curves 0.02 1 0.12 1 = Raise ZeroDivisionError
  /\ exists cs,
       Plot.plot_naca4_curves 0.02 0.4 0.12 1 = Ok cs
       /\ List.length cs = 3%nat.
Proof.
  destruct (plot_naca4_draws_three_curves 0.02 1 0.12 1) as [Hraise _].
  destruct (plot_naca4_draws_three_curves 0.02 0.4 0.12 1) as [_ Hdraw].
  split; [now apply Hraise|].
  destruct Hdraw as [xs [yu [yl [H _]]]];
    [right; apply ordinary_between; lra | lra |].
  eexists. split; [exact H | reflexivity].
Defined.

(** * The title and the designator *)

Import Script.
Import Stdlib.Strings.Ascii.

Lemma bind_inv {A B : Type} (r : Script.result A) (k : A -> Script.result B)
    (b : B) :
  Script.bind r k = Script.Ok b ->
  exists a, r = Script.Ok a /\ k a = Script.Ok b.
Proof. destruct r as [a|e]; simpl; [now exists a | discriminate]. Qed.

Lemma returns_int_true (r : Script.result Z) (n : Z) :
  returns_int r n = true -> r = Script.Ok n.
Proof.
  destruct r as [v|e]; simpl; [|discriminate].
  intros H. apply Z.eqb_eq in H. now subst.
Qed.

(** [int(k / 100 * 100)] for every [k] below 100, and [int(k / 10 * 10)]
    for every digit, by evaluation. *)
Lemma hundredths_table :
  forallb (fun cd =>
    returns_int (there_and_back (Z.of_nat cd) 100)
      (Z.of_nat (if existsb (Nat.eqb cd) [29; 57; 58]%nat
                 then cd - 1 else cd)))
    (seq 0 100) = true.
Proof. vm_compute. reflexivity. Qed.

Lemma tenths_table :
  forallb (fun b => returns_int (there_and_back (Z.of_nat b) 10) (Z.of_nat b))
    (seq 0 10) = true.
Proof. vm_compute. reflexivity. Qed.

Lemma there_and_back_hundredths (cd : nat) :
  (cd < 100)%nat ->
  there_and_back (Z.of_nat cd) 100
  = Script.Ok (Z.of_nat (if existsb (Nat.eqb cd) [29; 57; 58]%nat
                         then cd - 1 else cd)).
Proof.
  intros Hcd. apply returns_int_true.
  pose proof hundredths_table as Htab.
  rewrite forallb_forall in Htab. apply Htab. apply in_seq. lia.
Qed.

Lemma there_and_back_tenths (b : nat) :
  (b < 10)%nat -> there_and_back (Z.of_nat b) 10 = Script.Ok (Z.of_nat b).
Proof.
  intros Hb. apply returns_int_true.
  pose proof tenths_table as Htab.
  rewrite forallb_forall in Htab. apply Htab. apply in_seq. lia.
Qed.

Lemma decimal_one (a : nat) :
  (a < 10)%nat ->
  decimal (String (digit_char a) EmptyString) = Some (Z.of_nat a).
Proof.
  intros Ha.
  do 10 (destruct a as [|a]; [reflexivity|]). lia.
Qed.

Lemma decimal_two (c d : nat) :
  (c < 10)%nat -> (d < 10)%nat ->
  decimal (String (digit_char c) (String (digit_char d) EmptyString))
  = Some (Z.of_nat (10 * c + d)).
Proof.
  intros Hc Hd.
  do 10 (destruct c as [|c];
         [do 10 (destruct d as [|d]; [reflexivity|]); lia|]).
  lia.
Qed.

Lemma format_one_digit (a : nat) :
  (a < 10)%nat ->
  format_zero_padded 1 (Z.of_nat a) = String (digit_char a) EmptyString.
Proof.
  intros Ha.
  do 10 (destruct a as [|a]; [reflexivity|]). lia.
Qed.

Lemma format_two_digits (c d : nat) :
  (c < 10)%nat -> (d < 10)%nat ->
  format_zero_padded 2 (Z.of_nat (10 * c + d))
  = String (digit_char c) (String (digit_char d) EmptyString).
Proof.
  intros Hc Hd.
  do 10 (destruct c as [|c];
         [do 10 (destruct d as [|d]; [reflexivity|]); lia|]).
  lia.
Qed.

Section Designator.

Variable py_int : string -> Script.result Z.
Hypothesis py_int_decimal :
  forall s n,
    (String.length s <= 2)%nat -> decimal s = Some n ->
    py_int s = Script.Ok n.

Lemma title_of_digits (a b c d cd' : nat) :
  (a < 10)%nat -> (b < 10)%nat -> (c < 10)%nat -> (d < 10)%nat ->
  there_and_back (Z.of_nat (10 * c + d)) 100 = Script.Ok (Z.of_nat cd') ->
  title_of_designator py_int (designator a b c d)
  = Script.Ok ("NACA " ++ String (digit_char a) (String (digit_char b)
                 (format_zero_padded 2 (Z.of_nat cd'))))%string.
Proof.
  intros Ha Hb Hc Hd Hcd.
  pose proof (there_and_back_hundredths a ltac:(lia)) as Ha'.
  replace (existsb (Nat.eqb a) [29; 57; 58]%nat) with false in Ha'
    by (do 10 (destruct a as [|a]; [reflexivity|]); lia).
  pose proof (there_and_back_tenths b Hb) as Hb'.
  apply bind_inv in Ha'. destruct Ha' as [fm [Hm Hma]].
  apply bind_inv in Hb'. destruct Hb' as [fp [Hp Hpb]].
  apply bind_inv in Hcd. destruct Hcd as [ft [Ht Htc]].
  unfold title_of_designator, designator_params, designator, str_index,
    str_from.
  cbn [get length substring Nat.sub Script.bind].
  assert (H0 : py_int (String (digit_char a) EmptyString)
               = Script.Ok (Z.of_nat a))
    by (apply py_int_decimal; [simpl; lia | now apply decimal_one]).
  assert (H1 : py_int (String (digit_char b) EmptyString)
               = Script.Ok (Z.of_nat b))
    by (apply py_int_decimal; [simpl; lia | now apply decimal_one]).
  assert (H23 : py_int (String (digit_char c)
                         (String (digit_char d) EmptyString))
                = Script.Ok (Z.of_nat (10 * c + d)))
    by (apply py_int_decimal; [simpl; lia | now apply decimal_two]).
  rewrite H0, H1, H23.
  cbn [Script.bind]. rewrite Hm. cbn [Script.bind]. rewrite Hp.
  cbn [Script.bind]. rewrite Ht. cbn [Script.bind fst snd].
  unfold plot_title. rewrite Hma. cbn [Script.bind]. rewrite Hpb.
  cbn [Script.bind]. rewrite Htc. cbn [Script.bind].
  now rewrite !format_one_digit by assumption.
Qed.

(** X12. Let [int] give the decimal value of every string of one or two
    ASCII digits.  For a designator of four digits, the title computed from the
    parameters that the script decodes repeats the designator, except when
    the last two digits are 29, 57 or 58: there the product [t * 100]
    falls just below the integer and the title shows 28, 56 or 57. *)
Theorem title_repeats_designator (a b c d : nat) :
  (a < 10)%nat -> (b < 10)%nat -> (c < 10)%nat -> (d < 10)%nat ->
  ((10 * c + d <> 29)%nat -> (10 * c + d <> 57)%nat ->
   (10 * c + d <> 58)%nat ->
   title_of_designator py_int (designator a b c d)
   = Script.Ok ("NACA " ++ designator a b c d)%string)
  /\ (c = 2%nat -> d = 9%nat ->
      title_of_designator py_int (designator a b c d)
      = Script.Ok ("NACA " ++ designator a b 2 8)%string)
  /\ (c = 5%nat -> d = 7%nat ->
      title_of_designator py_int (designator a b c d)
      = Script.Ok ("NACA " ++ designator a b 5 6)%string)
  /\ (c = 5%nat -> d = 8%nat ->
      title_of_designator py_int (designator a b c d)
      = Script.Ok ("NACA " ++ designator a b 5 7)%string).
Proof.
  intros Ha Hb Hc Hd.
  pose proof (there_and_back_hundredths (10 * c + d) ltac:(lia)) as Hcd.
  repeat split.
  - intros H29 H57 H58.
    replace (existsb (Nat.eqb (10 * c + d)) [29; 57; 58]%nat) with false
      in Hcd.
    + rewrite (title_of_digits a b c d _ Ha Hb Hc Hd Hcd).
      now rewrite format_two_digits by assumption.
    + symmetry. cbn [existsb].
      repeat (apply orb_false_intro; [now apply Nat.eqb_neq|]).
      reflexivity.
  - intros -> ->.
    now rewrite (title_of_digits a b 2 9 28 Ha Hb Hc Hd Hcd).
  - intros -> ->.
    now rewrite (title_of_digits a b 5 7 56 Ha Hb Hc Hd Hcd).
  - intros -> ->.
    now rewrite (title_of_digits a b 5 8 57 Ha Hb Hc Hd Hcd).
Qed.

End Designator.

Lemma title_repeats_designator_witness :
  title_of_designator int_of_digits "0012"%string = Script.Ok "NACA 0012"%string
  /\ title_of_designator int_of_digits "2429"%string
     = Script.Ok "NACA 2428"%string.
Proof.
  assert (H : forall s n,
             (String.length s <= 2)%nat -> decimal s = Some n ->
             int_of_digits s = Script.Ok n).
  { intros s n _ E. unfold int_of_digits. now rewrite E. }
  split.
  - apply (title_repeats_designator int_of_digits H 0 0 1 2); lia.
  - apply (title_repeats_designator int_of_digits H 2 4 2 9); try lia;
      reflexivity.
Defined.
